(** * Feedback admin dashboard: the fetch / normalize / filter pipeline of app.py

    A shallow embedding of the data-handling functions of [src/app.py]
    (fetch_analytics, fetch_feedbacks, normalize_sentiment, filter_feedbacks,
    render_feedback_item, the sort-then-cap step and the card loop of main,
    and the key comparison of render_auth_screen), followed by the
    properties proved about them.

    Python values are JSON values; a Python exception is an explicit
    outcome [Raise]; [st.error] banners and the cards that
    render_feedback_item has drawn are collected in an output log.

    A Python str is modelled as a string of ASCII characters, one byte a
    character: [str.lower] and [s[:10]] are modelled on such text only,
    and the statements that rest on either carry the hypothesis
    [is_ascii]. *)

From Stdlib Require Import ZArith Ascii String Permutation Sorted Lia.
From stdpp Require Import base option list gmap strings.

Open Scope Z_scope.

(** ** Python values and exceptions *)

(** What [response.json()] can hand back: None, booleans, integers,
    strings, lists and dicts with string keys.  Numbers with a fractional
    part are not represented. *)
#[warnings="-register-all"]
Inductive value : Type :=
| VNone
| VBool (b : bool)
| VInt (n : Z)
| VStr (s : string)
| VList (l : list value)
| VDict (d : gmap string value).

(** A feedback record is a dict as decoded from a JSON object. *)
Abbreviation record := (gmap string value).

(** The exceptions the modelled code can raise or catch. *)
Inductive exn : Type :=
| KeyError (key : string)
| AttributeError (attr : string)
| TypeError (msg : string)
| ConnectionError (msg : string)
| Timeout (msg : string)
| JSONDecodeError (msg : string).

Inductive result (A : Type) : Type :=
| Ok (a : A)
| Raise (e : exn).
Arguments Ok {A} a.
Arguments Raise {A} e.

#[global] Instance result_ret : MRet result := fun _ a => Ok a.
#[global] Instance result_bind : MBind result := fun _ _ f m =>
  match m with
  | Ok a => f a
  | Raise e => Raise e
  end.

Definition is_ok {A} (r : result A) : Prop := exists a, r = Ok a.

(** ** Python string methods, on ASCII text *)

Module PyStr.

(** [c.lower()] for one character: 'A'..'Z' go to 'a'..'z', anything else
    is unchanged. *)
Definition lower_char (c : ascii) : ascii :=
  let n := N_of_ascii c in
  if ((65 <=? n) && (n <=? 90))%N then ascii_of_N (n + 32) else c.

(** [s.lower()], for a str of ASCII characters *)
Fixpoint lower (s : string) : string :=
  match s with
  | EmptyString => EmptyString
  | String c s' => String (lower_char c) (lower s')
  end.

(** [c in chars] for a character [c]. *)
Fixpoint char_in (c : ascii) (chars : string) : bool :=
  match chars with
  | EmptyString => false
  | String d chars' => Ascii.eqb c d || char_in c chars'
  end.

(** [s.rstrip(chars)]: drop the longest suffix made of characters of
    [chars]. *)
Fixpoint rstrip (chars : string) (s : string) : string :=
  match s with
  | EmptyString => EmptyString
  | String c s' =>
      match rstrip chars s' with
      | EmptyString => if char_in c chars then EmptyString else String c EmptyString
      | r => String c r
      end
  end.

(** [needle in hay] for two strings: [needle] occurs at some offset. *)
Fixpoint contains (needle hay : string) : bool :=
  String.prefix needle hay ||
  match hay with
  | EmptyString => false
  | String _ hay' => contains needle hay'
  end.

(** [not s] for a string: true on the empty string only. *)
Definition is_empty (s : string) : bool :=
  match s with
  | EmptyString => true
  | String _ _ => false
  end.

End PyStr.

(** ** Dict and attribute access *)

(** [d[k]] *)
Definition subscript (d : record) (k : string) : result value :=
  match d !! k with
  | Some v => Ok v
  | None => Raise (KeyError k)
  end.

(** [d.get(k, dflt)] *)
Definition dict_get (d : record) (k : string) (dflt : value) : value :=
  default dflt (d !! k).

(** [v.rstrip(chars)]: only a str has the method. *)
Definition str_rstrip (v : value) (chars : string) : result string :=
  match v with
  | VStr s => Ok (PyStr.rstrip chars s)
  | _ => Raise (AttributeError "rstrip")
  end.

(** [v.lower()] *)
Definition str_lower (v : value) : result string :=
  match v with
  | VStr s => Ok (PyStr.lower s)
  | _ => Raise (AttributeError "lower")
  end.

(** [v == n] for an int [n]: ints compare by value, a bool counts as 0 or
    1, every other JSON value differs from an int. *)
Definition py_eq_int (v : value) (n : Z) : bool :=
  match v with
  | VInt m => m =? n
  | VBool b => Z.b2z b =? n
  | _ => false
  end.

(** [v in xs] for a list of ints [xs]. *)
Definition in_ints (v : value) (xs : list Z) : bool :=
  existsb (py_eq_int v) xs.

(** [s in xs] for a str [s] and a list of strs [xs]. *)
Definition in_strs (s : string) (xs : list string) : bool :=
  existsb (String.eqb s) xs.

(** ** normalize_sentiment and filter_feedbacks *)

(** [feedback.get("sentiment", "Unknown").rstrip(".")] *)
Definition normalize_sentiment (feedback : record) : result string :=
  str_rstrip (dict_get feedback "sentiment" (VStr "Unknown")) ".".

(** [search_query.lower() in fb.get(field, "").lower()] *)
Definition query_in_field (search_query : string) (fb : record) (field : string)
  : result bool :=
  let q := PyStr.lower search_query in
  t ← str_lower (dict_get fb field (VStr ""));
  Ok (PyStr.contains q t).

(** The condition of the comprehension, with the short-circuit order of
    [and] and [or]. *)
Definition keeps (rating_filter : list Z) (sentiment_filter : list string)
    (search_query : string) (fb : record) : result bool :=
  r ← subscript fb "rating";
  if in_ints r rating_filter then
    s ← normalize_sentiment fb;
    if in_strs s sentiment_filter then
      if PyStr.is_empty search_query then Ok true
      else
        a ← query_in_field search_query fb "review";
        if (a : bool) then Ok true
        else query_in_field search_query fb "ai_summary"
    else Ok false
  else Ok false.

(** [[fb for fb in feedbacks if ...]].  The two filters are the lists that
    [st.multiselect] returns; the code only tests membership in them. *)
Fixpoint filter_feedbacks (feedbacks : list record) (rating_filter : list Z)
    (sentiment_filter : list string) (search_query : string)
  : result (list record) :=
  match feedbacks with
  | [] => Ok []
  | fb :: rest =>
      b ← keeps rating_filter sentiment_filter search_query fb;
      out ← filter_feedbacks rest rating_filter sentiment_filter search_query;
      Ok (if (b : bool) then fb :: out else out)
  end.

(** ** render_feedback_item: what one card shows *)

(** [v[:10]]: the first ten items of a str or a list; on ASCII text the
    ten characters are ten bytes.  None, bools and ints are not
    subscriptable; a dict cannot be indexed by a slice (a TypeError, a
    KeyError from Python 3.12 on). *)
Definition slice10 (v : value) : result value :=
  match v with
  | VStr s => Ok (VStr (String.substring 0 10 s))
  | VList l => Ok (VList (take 10 l))
  | VDict _ => Raise (TypeError "unhashable type: 'slice'")
  | _ => Raise (TypeError "object is not subscriptable")
  end.

(** The two symbols of the star bar. *)
Inductive star : Type := Filled | Hollow.

(** The int a value counts as in [str * v] and [5 - v]: ints, and bools
    as 0 or 1. *)
Definition as_int (v : value) : result Z :=
  match v with
  | VInt n => Ok n
  | VBool b => Ok (Z.b2z b)
  | _ => Raise (TypeError "can't multiply sequence by non-int")
  end.

(** ["★" * r + "☆" * (5 - r)]: a repetition count that is zero or
    negative gives the empty string.  Counts too large for the memory of
    the machine are not modelled. *)
Definition star_bar (rating : value) : result (list star) :=
  r ← as_int rating;
  Ok (repeat Filled (Z.to_nat r) ++ repeat Hollow (Z.to_nat (5 - r))).

(** [sentiment_colors.get(sentiment, "#888888")] *)
Definition sentiment_color (sentiment : string) : string :=
  if String.eqb sentiment "Positive" then "#00ff00"
  else if String.eqb sentiment "Neutral" then "#ffff00"
  else if String.eqb sentiment "Negative" then "#ff0000"
  else if String.eqb sentiment "Unknown" then "#888888"
  else "#888888".

(** The values that render_feedback_item interpolates into the page, in
    the order in which it computes them.  The HTML around them and the
    conversion of each value to the text shown (str() by the f-strings,
    upper() of the sentiment), none of which can raise, are left out. *)
Record card : Type := {
  title_rating : value;        (* feedback['rating'] *)
  title_sentiment : string;    (* sentiment, which the title shows as sentiment.upper() *)
  title_date : value;          (* feedback['created_at'][:10] *)
  card_review : value;         (* feedback["review"] *)
  card_summary : value;        (* feedback.get("ai_summary", "PROCESSING...") *)
  card_stars : list star;      (* rating_display_full *)
  card_color : string;         (* sentiment_color *)
  card_actions : value;        (* feedback.get("ai_actions", "PROCESSING...") *)
  card_response : value        (* feedback.get("ai_response", "") *)
}.

(** render_feedback_item(feedback, idx): either the card, or the first
    exception on the way.  [idx] is not used by the function.  What a card
    has drawn before it raises is not recorded. *)
Definition render_feedback_item (feedback : record) (idx : nat) : result card :=
  sentiment ← normalize_sentiment feedback;
  rating ← subscript feedback "rating";
  created_at ← subscript feedback "created_at";
  date ← slice10 created_at;
  review ← subscript feedback "review";
  stars ← star_bar rating;
  Ok {| title_rating := rating;
        title_sentiment := sentiment;
        title_date := date;
        card_review := review;
        card_summary := dict_get feedback "ai_summary" (VStr "PROCESSING...");
        card_stars := stars;
        card_color := sentiment_color sentiment;
        card_actions := dict_get feedback "ai_actions" (VStr "PROCESSING...");
        card_response := dict_get feedback "ai_response" (VStr "") |}.

(** An int or a bool: what the star bar can be built from. *)
Definition int_like (v : value) : Prop :=
  match v with
  | VInt _ | VBool _ => True
  | _ => False
  end.

(** A str or a list: what [v[:10]] is defined on. *)
Definition sliceable (v : value) : Prop :=
  match v with
  | VStr _ | VList _ => True
  | _ => False
  end.

(** A rating between [- star_limit] and [star_limit] gives a star bar of
    at most [star_limit + 5] symbols, which fits in memory wherever the
    app runs; that render_feedback_item returns is proved for such
    ratings. *)
Definition star_limit : Z := 1000000.

(** ** Output effects: banners, boxes and calls into the rendering code *)

Inductive ui_event : Type :=
| StError (msg : string)                       (* st.error(msg) *)
| TerminalBox (msg : string)                   (* a <div class="terminal-box"> *)
| StatsBar (displaying total : nat)            (* DISPLAYING n OF m RECORDS *)
| FeedbackItem (feedback : record) (idx : nat) (* render_feedback_item(feedback, idx) returned *).

(** A computation that appends to the page and may raise. *)
Definition io (A : Type) : Type := list ui_event -> result A * list ui_event.

#[global] Instance io_ret : MRet io := fun _ a out => (Ok a, out).
#[global] Instance io_bind : MBind io := fun _ _ f m out =>
  match m out with
  | (Ok a, out') => f a out'
  | (Raise e, out') => (Raise e, out')
  end.

Definition emit (ev : ui_event) : io unit := fun out => (Ok tt, out ++ [ev]).

Definition lift {A} (r : result A) : io A := fun out => (r, out).

(** [try: body  except Exception as e: handler(e)] *)
Definition try_except {A} (body : io A) (handler : exn -> io A) : io A :=
  fun out =>
    match body out with
    | (Ok a, out') => (Ok a, out')
    | (Raise e, out') => handler e out'
    end.

(** Run a computation on an empty page. *)
Definition run {A} (m : io A) : result A * list ui_event := m [].

(** [str(e)] *)
Definition exn_str (e : exn) : string :=
  match e with
  | KeyError k => "'" +:+ k +:+ "'"
  | AttributeError a => "object has no attribute '" +:+ a +:+ "'"
  | TypeError m | ConnectionError m | Timeout m | JSONDecodeError m => m
  end.

(** ** The API client *)

Record config : Type := {
  API_URL : string;          (* os.getenv("API_URL", "http://localhost:8000") *)
  API_KEY : option string    (* os.getenv("API_KEY"): None when unset *)
}.

Record request : Type := {
  url : string;
  headers : list (string * option string);
  params : list (string * Z);
  timeout : Z
}.

(** A response as the client uses it: the status code and the outcome of
    calling [response.json()]. *)
Record response : Type := {
  status_code : Z;
  json : result value
}.

(** [requests.get]: returns a response or raises. *)
Definition network : Type := request -> result response.

Section Client.
Variable requests_get : network.
Variable cfg : config.

(** The arguments of the two [requests.get] calls. *)
Definition analytics_request : request :=
  {| url := API_URL cfg +:+ "/admin/analytics";
     headers := [("X-API-Key", API_KEY cfg)];
     params := [];
     timeout := 10 |}.

Definition feedbacks_request (limit : Z) : request :=
  {| url := API_URL cfg +:+ "/admin/feedbacks";
     headers := [("X-API-Key", API_KEY cfg)];
     params := [("limit", limit)];
     timeout := 30 |}.

Definition fetch_analytics : io value :=
  try_except
    (response ← lift (requests_get analytics_request);
     if status_code response =? 200 then lift (json response) else mret VNone)
    (fun e =>
       _ ← emit (StError ("Analytics fetch error: " +:+ exn_str e));
       mret VNone).

Definition fetch_feedbacks (limit : Z) : io value :=
  try_except
    (response ← lift (requests_get (feedbacks_request limit));
     if status_code response =? 200 then lift (json response) else mret (VList []))
    (fun e =>
       _ ← emit (StError ("Feedback fetch error: " +:+ exn_str e));
       mret (VList [])).
End Client.

(** ** The feedback section of main: sort, filter, cap *)

(** [if v:] *)
Definition truthy (v : value) : bool :=
  match v with
  | VNone => false
  | VBool b => b
  | VInt n => negb (n =? 0)
  | VStr s => negb (PyStr.is_empty s)
  | VList l => match l with [] => false | _ => true end
  | VDict d => negb (bool_decide (d = ∅))
  end.

(** The argument of [x.get(...)] in the sort key must be a dict. *)
Definition as_record (v : value) : result record :=
  match v with
  | VDict d => Ok d
  | _ => Raise (AttributeError "get")
  end.

Fixpoint all_records (l : list value) : result (list record) :=
  match l with
  | [] => Ok []
  | v :: l' =>
      d ← as_record v;
      ds ← all_records l';
      Ok (d :: ds)
  end.

(** The elements [sorted] iterates over, each as the dict its key function
    needs.  Iterating a dict or a str yields strs, which have no [get];
    None, bools and ints are not iterable. *)
Definition records_of (v : value) : result (list record) :=
  match v with
  | VList l => all_records l
  | VDict d => if bool_decide (d = ∅) then Ok [] else Raise (AttributeError "get")
  | VStr s => if PyStr.is_empty s then Ok [] else Raise (AttributeError "get")
  | _ => Raise (TypeError "object is not iterable")
  end.

(** [lambda x: x.get("created_at", "")] *)
Definition created_at_key (x : record) : value :=
  dict_get x "created_at" (VStr "").

Section Sorted.
(** Python's [<] on two keys.  Only its value on two strs is ever assumed
    (see [lt_on_strs] below); on other values it is whatever Python
    does, including raising TypeError. *)
Variable py_lt : value -> value -> result bool.

(** Insert a decorated element in a list sorted in descending key order,
    after the elements whose key is greater than or equal to its own. *)
Fixpoint insert_desc (kx : value * record) (l : list (value * record))
  : result (list (value * record)) :=
  match l with
  | [] => Ok [kx]
  | ky :: l' =>
      b ← py_lt kx.1 ky.1;
      if (b : bool) then
        r ← insert_desc kx l';
        Ok (ky :: r)
      else Ok (kx :: ky :: l')
  end.

Fixpoint sort_desc (l : list (value * record)) : result (list (value * record)) :=
  match l with
  | [] => Ok []
  | kx :: l' =>
      s ← sort_desc l';
      insert_desc kx s
  end.

(** [sorted(l, key=key, reverse=True)]: the keys are computed first, the
    sort is stable, and with [reverse=True] records with equal keys keep
    their original order.  A stable sort has one possible result, so the
    insertion sort below returns what Python's returns whenever the
    comparisons succeed (descending order: [sorted_reverse_newest_first],
    stability: [sorted_reverse_stable]). *)
Definition sorted_reverse (key : record -> value) (l : list record)
  : result (list record) :=
  s ← sort_desc (map (fun x => (key x, x)) l);
  Ok (map snd s).

End Sorted.

(** [for idx, feedback in enumerate(items): render_feedback_item(feedback, idx)],
    counting from [idx]: each card is logged once render_feedback_item has
    returned; its first exception ends the loop. *)
Fixpoint render_items (idx : nat) (items : list record) : io unit :=
  match items with
  | [] => mret tt
  | feedback :: rest =>
      _ ← lift (render_feedback_item feedback idx);
      _ ← emit (FeedbackItem feedback idx);
      render_items (S idx) rest
  end.

Section Main.
Variable py_lt : value -> value -> result bool.
Variable requests_get : network.
Variable cfg : config.

(** The "Feedback section" of main.  The three values returned by
    [render_filters()] are inputs. *)
Definition feedback_section (rating_filter : list Z)
    (sentiment_filter : list string) (search_query : string) : io unit :=
  fetched ← fetch_feedbacks requests_get cfg 100;
  if truthy fetched then
    records ← lift (records_of fetched);
    feedbacks ← lift (sorted_reverse py_lt created_at_key records);
    filtered_feedbacks ←
      lift (filter_feedbacks feedbacks rating_filter sentiment_filter search_query);
    _ ← emit (StatsBar (length filtered_feedbacks) (length feedbacks));
    render_items 0 (take 20 filtered_feedbacks)
  else emit (TerminalBox "NO FEEDBACK STREAM DETECTED").
End Main.

(** ** The authentication gate *)

(** [api_key_input == API_KEY]: a str never equals None. *)
Definition key_matches (api_key_input : string) (key : option string) : bool :=
  match key with
  | Some k => String.eqb api_key_input k
  | None => false
  end.

Record session_state : Type := { authenticated : bool }.

(** render_auth_screen: [clicked] is what [st.button("AUTHENTICATE")]
    returned, [api_key_input] what the text input holds. *)
Definition render_auth_screen (cfg : config) (api_key_input : string)
    (clicked : bool) (ss : session_state) : session_state * list ui_event :=
  if clicked then
    if key_matches api_key_input (API_KEY cfg)
    then ({| authenticated := true |}, [])
    else (ss, [StError "ACCESS DENIED - INVALID CREDENTIALS"])
  else (ss, []).

(** ** One run of the script: widgets, session, main *)

(** What the widgets return in one run. *)
Record widgets : Type := {
  w_api_key_input : string;          (* st.text_input("API Key") *)
  w_authenticate : bool;             (* st.button("AUTHENTICATE") *)
  w_rating_filter : list Z;          (* st.multiselect("RATING FILTER") *)
  w_sentiment_filter : list string;  (* st.multiselect("SENTIMENT FILTER") *)
  w_date_range : list Z;             (* st.date_input("DATE RANGE"), as day numbers *)
  w_search : string;                 (* st.text_input("SEARCH") *)
  w_auto_refresh : bool;             (* st.toggle("AUTO-REFRESH") *)
  w_refresh_rate : Z;                (* st.slider("REFRESH RATE (SECONDS)") *)
  w_max_records : Z;                 (* st.slider("MAX RECORDS") *)
  w_logout : bool                    (* st.button("LOGOUT") *)
}.

(** The options of the two multiselects. *)
Definition rating_options : list Z := [1; 2; 3; 4; 5].

Definition sentiment_options : list string :=
  ["Positive"; "Neutral"; "Negative"; "Unknown"].

(** A multiselect returns some of its options. *)
Definition valid_selection (w : widgets) : Prop :=
  w_rating_filter w ⊆ rating_options ∧ w_sentiment_filter w ⊆ sentiment_options.

(** render_filters: [return rating_filter, sentiment_filter, search_query];
    the date range is read into a local variable and dropped. *)
Definition render_filters (w : widgets) : list Z * list string * string :=
  let date_range := w_date_range w in
  (w_rating_filter w, w_sentiment_filter w, w_search w).

(** render_sidebar, as far as it touches the session: LOGOUT clears the
    flag (and reruns the script); the toggle and the two sliders are read
    and dropped. *)
Definition render_sidebar (w : widgets) (ss : session_state) : session_state :=
  if w_logout w then {| authenticated := false |} else ss.

Section Script.
Variable py_lt : value -> value -> result bool.
Variable requests_get : network.
Variable cfg : config.
(** The rendering functions that main calls with no data or with the
    analytics dict: any computation on the page that may raise. *)
Variable render_header : io unit.
Variable render_metrics : value -> io unit.
Variable render_charts : value -> io unit.

(** The "Analytics section" of main. *)
Definition analytics_section : io unit :=
  analytics ← fetch_analytics requests_get cfg;
  if truthy analytics then
    _ ← render_metrics analytics;
    render_charts analytics
  else emit (TerminalBox "ERROR: FAILED TO CONNECT TO DATA SOURCE").

(** main from render_header() to the end of the feedback section. *)
Definition dashboard (w : widgets) : io unit :=
  _ ← render_header;
  _ ← analytics_section;
  feedback_section py_lt requests_get cfg
    (render_filters w).1.1 (render_filters w).1.2 (render_filters w).2.

(** One run of main on the session [ss0] ([None]: the key
    "authenticated" is not in st.session_state yet).  The result is what
    the run raised or not, the page, and the session it leaves.  When the
    session is not authenticated the run ends after the auth screen
    (st.stop(), or st.rerun() after a good key); the sidebar is rendered
    last, so not at all when the dashboard raised. *)
Definition main (ss0 : option session_state) (w : widgets)
  : result unit * list ui_event * session_state :=
  let ss := default {| authenticated := false |} ss0 in
  if authenticated ss then
    match run (dashboard w) with
    | (Ok _, page) => (Ok tt, page, render_sidebar w ss)
    | (Raise e, page) => (Raise e, page, ss)
    end
  else
    (Ok tt,
     (render_auth_screen cfg (w_api_key_input w) (w_authenticate w) ss).2,
     (render_auth_screen cfg (w_api_key_input w) (w_authenticate w) ss).1).

(** Successive runs of the script, each on the session the previous one
    left: the pages, and the last session. *)
Fixpoint script_runs (ss0 : option session_state) (ws : list widgets)
  : list (result unit * list ui_event) * option session_state :=
  match ws with
  | [] => ([], ss0)
  | w :: ws' =>
      let r := main ss0 w in
      let rest := script_runs (Some r.2) ws' in
      (r.1 :: rest.1, rest.2)
  end.
End Script.

(** ** The data model and the filter predicate in the words of the spec *)

(** The field is missing or holds text. *)
Definition text_or_absent (fb : record) (field : string) : Prop :=
  fb !! field = None ∨ ∃ s, fb !! field = Some (VStr s).

(** A FeedbackRecord of the data model, as far as the filter reads it: a
    rating is there, and sentiment, review and ai_summary are text when
    they are there. *)
Definition well_formed (fb : record) : Prop :=
  is_Some (fb !! "rating") ∧ text_or_absent fb "sentiment" ∧
  text_or_absent fb "review" ∧ text_or_absent fb "ai_summary".

(** The text of a field, a missing field read as the empty string. *)
Definition text_of (fb : record) (field : string) : string :=
  match fb !! field with
  | Some (VStr s) => s
  | _ => ""
  end.

(** [q] occurs in [t] when letter case is ignored: some segment of [t]
    equals [q] after both are lowercased. *)
Definition ci_substring (q t : string) : Prop :=
  ∃ pre mid post, t = pre +:+ mid +:+ post ∧ PyStr.lower mid = PyStr.lower q.

(** The record's rating is a member of the rating filter. *)
Definition rating_selected (fb : record) (rating_filter : list Z) : Prop :=
  ∃ r n, fb !! "rating" = Some r ∧ n ∈ rating_filter ∧ py_eq_int r n = true.

(** The normalized sentiment is a member of the sentiment filter. *)
Definition sentiment_selected (fb : record) (sentiment_filter : list string) : Prop :=
  ∃ s, normalize_sentiment fb = Ok s ∧ s ∈ sentiment_filter.

(** The query is empty or occurs, ignoring case, in review or ai_summary. *)
Definition query_matches (fb : record) (search_query : string) : Prop :=
  search_query = "" ∨
  ci_substring search_query (text_of fb "review") ∨
  ci_substring search_query (text_of fb "ai_summary").

Definition selected (rating_filter : list Z) (sentiment_filter : list string)
    (search_query : string) (fb : record) : Prop :=
  rating_selected fb rating_filter ∧
  sentiment_selected fb sentiment_filter ∧
  query_matches fb search_query.

(** [k] full stops in a row. *)
Fixpoint dots (k : nat) : string :=
  match k with
  | O => ""
  | S k' => String "." (dots k')
  end.

Definition ends_with_dot (s : string) : Prop := ∃ p, s = p +:+ ".".

(** What [keeps] says of a record, an exception counting as "not kept";
    used to state results by [List.filter]. *)
Definition kept (rating_filter : list Z) (sentiment_filter : list string)
    (search_query : string) (fb : record) : bool :=
  match keeps rating_filter sentiment_filter search_query fb with
  | Ok b => b
  | Raise _ => false
  end.

(** The failure kinds of the spec's taxonomy, read off the outcome of
    [requests.get]: [None] is a 200 response whose body parses. *)
Inductive failure_kind : Type :=
| Unreachable
| TimedOut
| BadStatus
| MalformedPayload
| OtherFault.

Definition classify (o : result response) : option failure_kind :=
  match o with
  | Raise (ConnectionError _) => Some Unreachable
  | Raise (Timeout _) => Some TimedOut
  | Raise _ => Some OtherFault
  | Ok r =>
      if status_code r =? 200 then
        match json r with
        | Ok _ => None
        | Raise _ => Some MalformedPayload
        end
      else Some BadStatus
  end.

(** The text a value holds, the empty string for anything that is not
    a str. *)
Definition str_of (v : value) : string :=
  match v with
  | VStr s => s
  | _ => ""
  end.

(** [py_lt] is Python's [<] on strs: the lexicographic order on code
    points. *)
Definition lt_on_strs (py_lt : value → value → result bool) : Prop :=
  ∀ a b, py_lt (VStr a) (VStr b) = Ok (String.ltb a b).

(** A comparison that is Python's on strs and is left undecided, as a
    TypeError, elsewhere; used to run the examples. *)
Definition py_lt_str (a b : value) : result bool :=
  match a, b with
  | VStr s, VStr t => Ok (String.ltb s t)
  | _, _ => Raise (TypeError "'<' not supported")
  end.

(** Descending created_at order, a missing created_at read as "": of two
    records, the earlier one in the list has the greater or equal text. *)
Definition newest_first (l : list record) : Prop :=
  ∀ i j x y, (i < j)%nat → l !! i = Some x → l !! j = Some y →
    String.leb (text_of y "created_at") (text_of x "created_at") = true.

(** The key of a decorated element is a str. *)
Definition has_str_key (p : value * record) : Prop := ∃ s, p.1 = VStr s.

(** The order on decorated elements that [sort_desc] establishes. *)
Definition key_ge (p q : value * record) : Prop :=
  String.leb (str_of q.1) (str_of p.1) = true.

(** The decorated element has the key text [k]. *)
Definition key_is (k : string) (p : value * record) : bool :=
  String.eqb (str_of p.1) k.

(** The record has the created_at text [k], a missing one read as "". *)
Definition created_at_is (k : string) (x : record) : bool :=
  String.eqb (text_of x "created_at") k.

(** ** The text the model covers *)

(** A Rocq string stands for a Python str whose characters are all ASCII,
    one byte a character; on such text [PyStr.lower] is [str.lower] and
    [slice10] cuts ten characters.  Other text is outside the model, and
    the statements that depend on letter case or on counting characters
    say so by [is_ascii]. *)
Definition is_ascii_char (c : ascii) : bool := (N_of_ascii c <? 128)%N.

Fixpoint is_ascii_b (s : string) : bool :=
  match s with
  | EmptyString => true
  | String c s' => is_ascii_char c && is_ascii_b s'
  end.

Definition is_ascii (s : string) : Prop := is_ascii_b s = true.


(** ** The three conditions of the filter, stated without the code *)










(** ** What the loop over the cards does *)

(** The records a loop over [items] renders: those before the first one
    on which render_feedback_item raises. *)
Fixpoint rendered_before_failure (items : list record) : list record :=
  match items with
  | [] => []
  | fb :: rest =>
      match render_feedback_item fb 0 with
      | Ok _ => fb :: rendered_before_failure rest
      | Raise _ => []
      end
  end.

(** How the loop ends: with the first exception, or normally. *)
Fixpoint loop_outcome (items : list record) : result unit :=
  match items with
  | [] => Ok tt
  | fb :: rest =>
      match render_feedback_item fb 0 with
      | Ok _ => loop_outcome rest
      | Raise e => Raise e
      end
  end.


(** ** Sample data: the records of the spec's filter tests *)

Definition great_app : record :=
  {[ "rating" := VInt 5; "sentiment" := VStr "Positive"; "review" := VStr "great app" ]}.

Definition bad_bug : record :=
  {[ "rating" := VInt 1; "sentiment" := VStr "Negative."; "ai_summary" := VStr "Reports a BUG" ]}.

Definition all_ratings : list Z := [1; 2; 3; 4; 5].

Definition all_sentiments : list string := ["Positive"; "Neutral"; "Negative"; "Unknown"].

Definition sample_cfg : config :=
  {| API_URL := "http://localhost:8000"; API_KEY := Some "s3cret" |}.

(** A server that answers every request with the same status and body. *)
Definition net_status (code : Z) (body : result value) : network :=
  λ _, Ok {| status_code := code; json := body |}.

(** No server: every request fails to connect. *)
Definition net_down : network :=
  λ _, Raise (ConnectionError "Connection refused").

(** A decimal digit and a day of the month as two digits. *)
Definition digit (d : nat) : ascii := ascii_of_nat (48 + d).

Definition two_digits (n : nat) : string :=
  String (digit (n / 10)) (String (digit (n mod 10)) "").

(** The record submitted on day [i + 1] of January 2024. *)
Definition january (i : nat) : record :=
  {[ "rating" := VInt 5;
     "review" := VStr "great app";
     "created_at" := VStr ("2024-01-" +:+ two_digits (S i) +:+ "T09:30:00") ]}.

(** [n] records, one a day, oldest first. *)
Definition stream (n : nat) : list record := january <$> seq 0 n.

(** [bad_bug] with the two fields the rendering needs. *)
Definition bad_bug_dated : record :=
  <["created_at" := VStr "2024-03-09T18:02:11Z"]> (<["review" := VStr "bad bug"]> bad_bug).

(** Widgets left alone: nothing typed, nothing pressed, every option
    selected. *)
Definition idle_widgets : widgets :=
  {| w_api_key_input := ""; w_authenticate := false;
     w_rating_filter := rating_options; w_sentiment_filter := sentiment_options;
     w_date_range := [19723; 19723]; w_search := "";
     w_auto_refresh := false; w_refresh_rate := 60; w_max_records := 100;
     w_logout := false |}.

(** The operator types a key and presses AUTHENTICATE. *)
Definition login_widgets (key : string) : widgets :=
  {| w_api_key_input := key; w_authenticate := true;
     w_rating_filter := rating_options; w_sentiment_filter := sentiment_options;
     w_date_range := [19723; 19723]; w_search := "";
     w_auto_refresh := false; w_refresh_rate := 60; w_max_records := 100;
     w_logout := false |}.

(** Rendering functions that draw nothing that is recorded. *)
Definition quiet : io unit := mret tt.

Definition quiet_on (analytics : value) : io unit := mret tt.

(** The same inputs for everything main reads: the date range, the
    auto-refresh toggle and the two sliders may differ. *)
Definition same_inputs (w w' : widgets) : Prop :=
  w_api_key_input w = w_api_key_input w' ∧
  w_authenticate w = w_authenticate w' ∧
  w_rating_filter w = w_rating_filter w' ∧
  w_sentiment_filter w = w_sentiment_filter w' ∧
  w_search w = w_search w' ∧
  w_logout w = w_logout w'.

(** The page of the auth screen: empty, or the refusal banner. *)
Definition auth_page (page : list ui_event) : Prop :=
  page = [] ∨ page = [StError "ACCESS DENIED - INVALID CREDENTIALS"].

(** ** Facts about the string methods *)

Lemma append_empty_l s : "" +:+ s = s.
Proof. reflexivity. Qed.

Lemma append_String c a b : String c a +:+ b = String c (a +:+ b).
Proof. reflexivity. Qed.

(** Push [+:+] through the constructors, in the goal and in [H]. *)
Ltac push_append :=
  rewrite ?append_empty_l, ?append_String.
Ltac push_append_in H :=
  rewrite ?append_empty_l, ?append_String in H.

Lemma is_empty_true s : PyStr.is_empty s = true ↔ s = "".
Proof. destruct s; simpl; split; congruence. Qed.

Lemma lower_app a b : PyStr.lower (a +:+ b) = PyStr.lower a +:+ PyStr.lower b.
Proof.
  induction a as [|c a IH]; push_append; simpl; push_append; [reflexivity|].
  now rewrite IH.
Qed.

(** A split of the lowercased text comes from a split of the text. *)
Lemma lower_split t : ∀ x y,
  PyStr.lower t = x +:+ y →
  ∃ a b, t = a +:+ b ∧ PyStr.lower a = x ∧ PyStr.lower b = y.
Proof.
  induction t as [|c t IH]; intros x y H; simpl in H.
  - destruct x; push_append_in H; [|discriminate].
    exists "", "". now subst y.
  - destruct x as [|d x]; push_append_in H.
    + exists "", (String c t). now subst y.
    + injection H as Hd Hx.
      destruct (IH _ _ Hx) as (a & b & -> & Ha & Hb).
      exists (String c a), b. push_append. simpl. now rewrite Hd, Ha, Hb.
Qed.

Lemma prefix_app n : ∀ h, String.prefix n h = true ↔ ∃ post, h = n +:+ post.
Proof.
  induction n as [|c n IH]; intros h.
  - split; [intros _; now exists h | intros _; now destruct h].
  - destruct h as [|d h]; simpl.
    + split; [discriminate | intros [post H]; discriminate].
    + destruct (ascii_dec c d) as [->|Hne].
      * rewrite IH. split; intros [post H]; exists post; push_append;
          [now rewrite H | push_append_in H; now injection H].
      * split; [discriminate |].
        intros [post H]. push_append_in H. injection H as Hd _. now symmetry in Hd.
Qed.

Lemma contains_empty n : PyStr.contains n "" = String.prefix n "".
Proof. unfold PyStr.contains. apply orb_false_r. Qed.

Lemma contains_String n d h :
  PyStr.contains n (String d h) = String.prefix n (String d h) || PyStr.contains n h.
Proof. reflexivity. Qed.

(** [needle in hay] finds exactly the occurrences of [needle]. *)
Lemma contains_app n h :
  PyStr.contains n h = true ↔ ∃ pre post, h = pre +:+ n +:+ post.
Proof.
  induction h as [|d h IH].
  - rewrite contains_empty, prefix_app. split.
    + intros [post H]. now exists "", post.
    + intros (pre & post & H).
      destruct pre; push_append_in H; [now exists post | discriminate].
  - rewrite contains_String, orb_true_iff, prefix_app, IH. split.
    + intros [[post H] | (pre & post & H)].
      * now exists "", post.
      * exists (String d pre), post. push_append. now rewrite H.
    + intros (pre & post & H). destruct pre as [|e pre]; push_append_in H.
      * left. now exists post.
      * right. injection H as _ H. now exists pre, post.
Qed.

(** The test of the source, [q.lower() in t.lower()], is the
    case-insensitive substring relation. *)
Lemma contains_lower q t :
  PyStr.contains (PyStr.lower q) (PyStr.lower t) = true ↔ ci_substring q t.
Proof.
  rewrite contains_app. unfold ci_substring. split.
  - intros (pre & post & H).
    destruct (lower_split _ _ _ H) as (a & b & -> & Ha & Hb).
    destruct (lower_split _ _ _ Hb) as (m & c & -> & Hm & Hc).
    now exists a, m, c.
  - intros (pre & mid & post & -> & Hm).
    exists (PyStr.lower pre), (PyStr.lower post).
    now rewrite !lower_app, Hm.
Qed.

Lemma rstrip_idempotent chars s :
  PyStr.rstrip chars (PyStr.rstrip chars s) = PyStr.rstrip chars s.
Proof.
  induction s as [|c s IH]; simpl; [reflexivity|].
  destruct (PyStr.rstrip chars s) as [|d r] eqn:E.
  - destruct (PyStr.char_in c chars) eqn:Hc; simpl; [reflexivity | now rewrite Hc].
  - simpl in IH |- *. now rewrite IH.
Qed.

(** What is cut off is a run of full stops. *)
Lemma rstrip_dots s : ∃ k, s = PyStr.rstrip "." s +:+ dots k.
Proof.
  induction s as [|c s [k IH]]; simpl.
  - now exists O.
  - destruct (PyStr.rstrip "." s) as [|d r] eqn:E.
    + simpl. rewrite orb_false_r. push_append_in IH.
      destruct (Ascii.eqb c ".") eqn:Hc.
      * apply Ascii.eqb_eq in Hc as ->. exists (S k). simpl. now rewrite IH at 1.
      * exists k. push_append. now rewrite IH at 1.
    + exists k. push_append. push_append_in IH. now rewrite IH at 1.
Qed.

(** What is left does not end with a full stop. *)
Lemma rstrip_no_trailing_dot s : ¬ ends_with_dot (PyStr.rstrip "." s).
Proof.
  induction s as [|c s IH]; simpl; intros [p H].
  - destruct p; discriminate.
  - destruct (PyStr.rstrip "." s) as [|d r] eqn:E.
    + simpl in H. rewrite orb_false_r in H.
      destruct (Ascii.eqb c ".") eqn:Hc.
      * destruct p; discriminate.
      * destruct p as [|e p]; push_append_in H.
        -- injection H as ->. now rewrite Ascii.eqb_refl in Hc.
        -- injection H as _ H. destruct p; discriminate.
    + destruct p as [|e p]; push_append_in H; [discriminate|].
      injection H as _ H. apply IH. now exists p.
Qed.

(** ** Facts about normalize_sentiment and the filter condition *)

Lemma rstrip_only_dots k : PyStr.rstrip "." (dots k) = "".
Proof. induction k as [|k IH]; simpl; [reflexivity | now rewrite IH]. Qed.

Lemma rstrip_app_dots s k : PyStr.rstrip "." (s +:+ dots k) = PyStr.rstrip "." s.
Proof.
  induction s as [|c s IH]; push_append.
  - apply rstrip_only_dots.
  - simpl. now rewrite IH.
Qed.





Lemma in_ints_true v xs :
  in_ints v xs = true ↔ ∃ n, n ∈ xs ∧ py_eq_int v n = true.
Proof.
  unfold in_ints. rewrite existsb_exists.
  split; intros (n & Hn & E); exists n; split; auto; now apply list_elem_of_In.
Qed.

Lemma in_strs_true s xs : in_strs s xs = true ↔ s ∈ xs.
Proof.
  unfold in_strs. rewrite existsb_exists, list_elem_of_In. split.
  - intros (t & Ht & E). now apply String.eqb_eq in E as ->.
  - intros H. exists s. split; [assumption | apply String.eqb_refl].
Qed.

Lemma normalize_sentiment_text fb s :
  fb !! "sentiment" = Some (VStr s) →
  normalize_sentiment fb = Ok (PyStr.rstrip "." s).
Proof. intros H. unfold normalize_sentiment, dict_get. now rewrite H. Qed.

Lemma normalize_sentiment_absent fb :
  fb !! "sentiment" = None → normalize_sentiment fb = Ok "Unknown".
Proof. intros H. unfold normalize_sentiment, dict_get. now rewrite H. Qed.

Lemma normalize_sentiment_total fb :
  text_or_absent fb "sentiment" → is_ok (normalize_sentiment fb).
Proof.
  intros [H | [s H]].
  - eexists. exact (normalize_sentiment_absent fb H).
  - eexists. exact (normalize_sentiment_text fb s H).
Qed.

(** For a rating that is an int, being selected is plain membership. *)
Lemma normalize_sentiment_ok_iff fb :
  is_ok (normalize_sentiment fb) ↔ text_or_absent fb "sentiment".
Proof.
  split; [|apply normalize_sentiment_total].
  unfold normalize_sentiment, dict_get, text_or_absent.
  destruct (fb !! "sentiment") as [[| | |s| |]|]; intros [r H];
    try discriminate; [right; now exists s | now left].
Qed.

Lemma rating_selected_int fb rf n :
  fb !! "rating" = Some (VInt n) → (rating_selected fb rf ↔ n ∈ rf).
Proof.
  intros H. unfold rating_selected. split.
  - intros (r & m & Hr & Hm & E). rewrite H in Hr. injection Hr as <-.
    simpl in E. now apply Z.eqb_eq in E as ->.
  - intros Hn. exists (VInt n), n. repeat split; [assumption.. |].
    simpl. apply Z.eqb_refl.
Qed.

(** On a text field, or a missing one, the search of one field is the
    substring test on its text. *)
Lemma query_in_field_text q fb field :
  text_or_absent fb field →
  query_in_field q fb field =
    Ok (PyStr.contains (PyStr.lower q) (PyStr.lower (text_of fb field))).
Proof.
  unfold query_in_field, dict_get, text_of.
  intros [H | [s H]]; now rewrite H.
Qed.

(** Whenever the search of one field returns, it returns the
    case-insensitive substring test. *)
Lemma query_in_field_Ok q fb field b :
  query_in_field q fb field = Ok b →
  (b = true ↔ ci_substring q (text_of fb field)).
Proof.
  intros H.
  assert (T : text_or_absent fb field).
  { unfold query_in_field, dict_get in H.
    destruct (fb !! field) as [[| | |s| |]|] eqn:E; try discriminate;
      [right; now exists s | now left]. }
  rewrite (query_in_field_text q fb field T) in H.
  assert (E : b = PyStr.contains (PyStr.lower q) (PyStr.lower (text_of fb field)))
    by congruence.
  rewrite E. apply contains_lower.
Qed.

(** Whenever the condition of the comprehension returns, it returns the
    conjunction of the three conditions of the spec. *)
Lemma keeps_Ok rf sf q fb b :
  keeps rf sf q fb = Ok b → (b = true ↔ selected rf sf q fb).
Proof.
  unfold keeps, subscript, selected, rating_selected, sentiment_selected, query_matches.
  destruct (fb !! "rating") as [r|] eqn:Er; simpl; [|discriminate].
  destruct (in_ints r rf) eqn:Ei.
  2:{ intros [= <-]. split; [discriminate|].
      intros [(r' & n & [= <-] & Hn & E) _].
      assert (in_ints r rf = true) by (apply in_ints_true; eauto). congruence. }
  apply in_ints_true in Ei as (n & Hn & En).
  destruct (normalize_sentiment fb) as [s|e] eqn:Es; simpl; [|discriminate].
  destruct (in_strs s sf) eqn:Ess.
  2:{ intros [= <-]. split; [discriminate|].
      intros (_ & (s' & [= <-] & Hs) & _).
      apply in_strs_true in Hs. congruence. }
  apply in_strs_true in Ess.
  assert (Hrs : (∃ r0 n0, Some r = Some r0 ∧ n0 ∈ rf ∧ py_eq_int r0 n0 = true) ∧
                (∃ s0, Ok s = Ok s0 ∧ s0 ∈ sf)) by eauto 8.
  destruct (PyStr.is_empty q) eqn:Eq.
  { apply is_empty_true in Eq. intros [= <-]. split; [|reflexivity].
    intros _. destruct Hrs. auto. }
  assert (Hq : q ≠ "") by (intros ->; discriminate).
  destruct (query_in_field q fb "review") as [a|e] eqn:Ea; simpl; [|discriminate].
  apply query_in_field_Ok in Ea.
  destruct a.
  { intros [= <-]. split; [|reflexivity]. intros _.
    destruct Hrs. repeat split; auto. right. left. now apply Ea. }
  intros Eb. apply query_in_field_Ok in Eb. split.
  - intros Hb. destruct Hrs. repeat split; auto. right. right. now apply Eb.
  - intros (_ & _ & [Hq' | [Hq' | Hq']]).
    + contradiction.
    + apply Ea in Hq'. discriminate.
    + now apply Eb.
Qed.

(** The condition returns on every well-formed record. *)
Lemma keeps_total rf sf q fb : well_formed fb → is_ok (keeps rf sf q fb).
Proof.
  intros ([r Hr] & Hs & Hrev & Hsum).
  unfold keeps, subscript. rewrite Hr. simpl.
  destruct (in_ints r rf); [|now eexists].
  destruct (normalize_sentiment_total fb Hs) as [s ->]. simpl.
  destruct (in_strs s sf); [|now eexists].
  destruct (PyStr.is_empty q); [now eexists|].
  rewrite (query_in_field_text q fb "review" Hrev). simpl.
  destruct (PyStr.contains _ _); [now eexists|].
  rewrite (query_in_field_text q fb "ai_summary" Hsum). now eexists.
Qed.

Lemma kept_true rf sf q fb :
  kept rf sf q fb = true ↔ keeps rf sf q fb = Ok true.
Proof.
  unfold kept. destruct (keeps rf sf q fb) as [[]|]; split; congruence.
Qed.

(** Whenever filter_feedbacks returns, it returns the records the
    condition keeps, in their order. *)
Lemma filter_feedbacks_Ok_filter rf sf q fbs : ∀ out,
  filter_feedbacks fbs rf sf q = Ok out → out = List.filter (kept rf sf q) fbs.
Proof.
  induction fbs as [|fb fbs IH]; simpl; intros out H.
  - now injection H as <-.
  - unfold kept at 1.
    destruct (keeps rf sf q fb) as [b|e]; simpl in H; [|discriminate].
    destruct (filter_feedbacks fbs rf sf q) as [out'|e]; simpl in H; [|discriminate].
    injection H as <-. rewrite <- (IH out' eq_refl). now destruct b.
Qed.

(** filter_feedbacks returns on every list of well-formed records. *)
Lemma filter_feedbacks_total rf sf q fbs :
  Forall well_formed fbs → is_ok (filter_feedbacks fbs rf sf q).
Proof.
  induction 1 as [|fb fbs Hfb _ IH]; simpl.
  - now eexists.
  - destruct (keeps_total rf sf q fb Hfb) as [b ->].
    destruct IH as [out ->]. simpl. now eexists.
Qed.

(** Whenever filter_feedbacks returns, a record is in the output exactly
    when it is in the input and meets the three conditions. *)
Lemma filter_feedbacks_Ok_selected rf sf q fbs out :
  filter_feedbacks fbs rf sf q = Ok out →
  ∀ fb, fb ∈ out ↔ fb ∈ fbs ∧ selected rf sf q fb.
Proof.
  revert out. induction fbs as [|fb0 fbs IH]; simpl; intros out H fb.
  - injection H as <-. split; [intros Hin | intros [Hin _]]; now apply elem_of_nil in Hin.
  - destruct (keeps rf sf q fb0) as [b|e] eqn:Ek; simpl in H; [|discriminate].
    destruct (filter_feedbacks fbs rf sf q) as [out'|e]; simpl in H; [|discriminate].
    injection H as <-. specialize (IH out' eq_refl fb).
    apply keeps_Ok in Ek. rewrite elem_of_cons.
    destruct b.
    + rewrite elem_of_cons, IH. split.
      * intros [-> | [? ?]]; [split; [now left | now apply Ek] | split; [now right | assumption]].
      * intros [[-> | ?] ?]; [now left | now right].
    + rewrite IH. split.
      * intros [? ?]. split; [now right | assumption].
      * intros [[-> | ?] Hsel]; [apply Ek in Hsel; discriminate | now split].
Qed.

(** ** Properties of normalize_sentiment and filter_feedbacks *)

(** ** The filter conditions stated without the code, and the code *)











Ltac solve_text_or_absent :=
  first [left; reflexivity | right; eexists; reflexivity].
Ltac solve_well_formed :=
  repeat split; [eexists; reflexivity | solve_text_or_absent ..].

Lemma sample_well_formed : Forall well_formed [great_app; bad_bug].
Proof.
  repeat (apply List.Forall_cons; [solve_well_formed|]). apply List.Forall_nil.
Qed.

(** The first filter test of the spec. *)
Example filter_test_rating_sentiment :
  filter_feedbacks [great_app; bad_bug] [5] ["Positive"] "" = Ok [great_app].
Proof. reflexivity. Qed.

(** The second one; here the match is in ai_summary and differs in case. *)
Example filter_test_search :
  filter_feedbacks [great_app; bad_bug] [1; 5] ["Positive"; "Negative"] "bug"
  = Ok [bad_bug].
Proof. reflexivity. Qed.

(** A null sentiment has no [rstrip]. *)
Example normalize_sentiment_null :
  normalize_sentiment {[ "sentiment" := VNone ]} = Raise (AttributeError "rstrip").
Proof. reflexivity. Qed.

(** C2, as the claim states it, fails: on a record that has no rating
    field, filter_feedbacks raises KeyError instead of returning. *)
Lemma filter_feedbacks_missing_rating_raises :
  filter_feedbacks [{[ "review" := VStr "fine"; "sentiment" := VStr "Neutral" ]}]
    all_ratings all_sentiments ""
  = Raise (KeyError "rating").
Proof. reflexivity. Qed.

(** C2, amended: normalize_sentiment returns a string on every record
    whose sentiment field is missing or text, whatever else the record
    holds or lacks, and on no other record; filter_feedbacks returns a
    list on every list of records that each carry a rating and whose
    sentiment, review and ai_summary fields are each missing or text.  No
    exception is raised on such input. *)
Theorem normalize_and_filter_return :
  (∀ fb, is_ok (normalize_sentiment fb) ↔ text_or_absent fb "sentiment") ∧
  (∀ fbs rf sf q, Forall well_formed fbs → is_ok (filter_feedbacks fbs rf sf q)).
Proof.
  split.
  - intros fb. apply normalize_sentiment_ok_iff.
  - intros fbs rf sf q Hwf. now apply filter_feedbacks_total.
Qed.

Lemma normalize_and_filter_return_witness :
  is_ok (normalize_sentiment {[ "review" := VStr "fine" ]}) ∧
  is_ok (normalize_sentiment {[ "sentiment" := VStr "Neutral." ]}) ∧
  is_ok (filter_feedbacks [great_app; bad_bug] all_ratings all_sentiments "app").
Proof.
  split; [|split].
  - apply (proj1 normalize_and_filter_return {[ "review" := VStr "fine" ]}).
    left. reflexivity.
  - apply (proj1 normalize_and_filter_return {[ "sentiment" := VStr "Neutral." ]}).
    right. eexists. reflexivity.
  - exact (proj2 normalize_and_filter_return [great_app; bad_bug] all_ratings
             all_sentiments "app" sample_well_formed).
Defined.





(** C4: when the sentiment field holds a string, normalize_sentiment
    returns that string without its trailing full stops (the string is the
    result followed by full stops only, and the result does not end with
    one); when the field is absent it returns "Unknown".  "Positive." and
    "Positive" both give "Positive", the empty record gives "Unknown". *)
Theorem normalize_sentiment_strips_dots :
  (∀ fb s, fb !! "sentiment" = Some (VStr s) →
     ∃ r k, normalize_sentiment fb = Ok r ∧ s = r +:+ dots k ∧ ¬ ends_with_dot r) ∧
  (∀ fb, fb !! "sentiment" = None → normalize_sentiment fb = Ok "Unknown") ∧
  normalize_sentiment {[ "sentiment" := VStr "Positive." ]} = Ok "Positive" ∧
  normalize_sentiment {[ "sentiment" := VStr "Positive" ]} = Ok "Positive" ∧
  normalize_sentiment ∅ = Ok "Unknown".
Proof.
  split; [|split; [|repeat split]].
  - intros fb s H. destruct (rstrip_dots s) as [k Hk].
    exists (PyStr.rstrip "." s), k. split; [|split].
    + now apply normalize_sentiment_text.
    + exact Hk.
    + apply rstrip_no_trailing_dot.
  - apply normalize_sentiment_absent.
Qed.

Lemma normalize_sentiment_strips_dots_witness :
  ∃ r k, normalize_sentiment bad_bug = Ok r ∧
         "Negative." = r +:+ dots k ∧ ¬ ends_with_dot r.
Proof.
  exact (proj1 normalize_sentiment_strips_dots bad_bug "Negative." eq_refl).
Defined.

(** C5: normalization is idempotent: if normalize_sentiment gives [r] on
    some record, it gives [r] again on any record whose sentiment field
    holds [r]. *)
Theorem normalize_sentiment_idempotent (fb fb' : record) (r : string) :
  normalize_sentiment fb = Ok r →
  fb' !! "sentiment" = Some (VStr r) →
  normalize_sentiment fb' = Ok r.
Proof.
  intros H H'. rewrite (normalize_sentiment_text fb' r H'). f_equal.
  unfold normalize_sentiment, dict_get in H.
  destruct (fb !! "sentiment") as [[| | |s| |]|]; simpl in H; try discriminate.
  - injection H as <-. apply rstrip_idempotent.
  - now injection H as <-.
Qed.

Lemma normalize_sentiment_idempotent_witness :
  normalize_sentiment {[ "sentiment" := VStr "Neutral..." ]} = Ok "Neutral" ∧
  normalize_sentiment {[ "sentiment" := VStr "Neutral" ]} = Ok "Neutral".
Proof.
  split; [reflexivity|].
  exact (normalize_sentiment_idempotent
           {[ "sentiment" := VStr "Neutral..." ]} {[ "sentiment" := VStr "Neutral" ]}
           "Neutral" eq_refl eq_refl).
Defined.




(** Whenever filter_feedbacks returns, its output is a subsequence of its
    input. *)
Lemma filter_feedbacks_Ok_sublist rf sf q fbs : ∀ out,
  filter_feedbacks fbs rf sf q = Ok out → out `sublist_of` fbs.
Proof.
  induction fbs as [|fb fbs IH]; simpl; intros out H.
  - injection H as <-. constructor.
  - destruct (keeps rf sf q fb) as [b|e]; simpl in H; [|discriminate].
    destruct (filter_feedbacks fbs rf sf q) as [out'|e]; simpl in H; [|discriminate].
    injection H as <-. specialize (IH out' eq_refl).
    destruct b; now constructor.
Qed.

(** C7: on well-formed records filter_feedbacks returns a subsequence of
    its input: the records it keeps come in the order they had in the
    input. *)
Theorem filter_feedbacks_preserves_order (fbs : list record) (rf : list Z)
    (sf : list string) (q : string) :
  Forall well_formed fbs →
  ∃ out, filter_feedbacks fbs rf sf q = Ok out ∧ out `sublist_of` fbs.
Proof.
  intros Hwf.
  destruct (filter_feedbacks_total rf sf q fbs Hwf) as [out E].
  exists out. split; [assumption|].
  now apply filter_feedbacks_Ok_sublist in E.
Qed.

Lemma filter_feedbacks_preserves_order_witness :
  Forall well_formed [great_app; bad_bug] ∧
  ∃ out, filter_feedbacks [great_app; bad_bug] all_ratings all_sentiments "" = Ok out ∧
         out `sublist_of` [great_app; bad_bug].
Proof.
  split; [exact sample_well_formed|].
  exact (filter_feedbacks_preserves_order [great_app; bad_bug] all_ratings
           all_sentiments "" sample_well_formed).
Defined.

(** ** Properties of the API client *)

(** What one call of fetch_analytics does, by the outcome of its request. *)
Lemma fetch_analytics_run requests_get cfg :
  run (fetch_analytics requests_get cfg) =
  match requests_get (analytics_request cfg) with
  | Ok r =>
      if status_code r =? 200 then
        match json r with
        | Ok v => (Ok v, [])
        | Raise e => (Ok VNone, [StError ("Analytics fetch error: " +:+ exn_str e)])
        end
      else (Ok VNone, [])
  | Raise e => (Ok VNone, [StError ("Analytics fetch error: " +:+ exn_str e)])
  end.
Proof.
  unfold run, fetch_analytics, try_except, lift, emit, mbind, io_bind, mret, io_ret.
  destruct (requests_get (analytics_request cfg)) as [r|e]; [|reflexivity].
  destruct (status_code r =? 200); [|reflexivity].
  now destruct (json r).
Qed.

(** The same for fetch_feedbacks. *)
Lemma fetch_feedbacks_run requests_get cfg limit :
  run (fetch_feedbacks requests_get cfg limit) =
  match requests_get (feedbacks_request cfg limit) with
  | Ok r =>
      if status_code r =? 200 then
        match json r with
        | Ok v => (Ok v, [])
        | Raise e => (Ok (VList []), [StError ("Feedback fetch error: " +:+ exn_str e)])
        end
      else (Ok (VList []), [])
  | Raise e => (Ok (VList []), [StError ("Feedback fetch error: " +:+ exn_str e)])
  end.
Proof.
  unfold run, fetch_feedbacks, try_except, lift, emit, mbind, io_bind, mret, io_ret.
  destruct (requests_get (feedbacks_request cfg limit)) as [r|e]; [|reflexivity].
  destruct (status_code r =? 200); [|reflexivity].
  now destruct (json r).
Qed.

(** C1, as the claim states it, fails: on a 500 response fetch_feedbacks
    returns the empty list and shows no banner, which is what it does on a
    200 response whose body is the empty array; the same value and one
    banner come back when no connection can be made. *)
Lemma fetch_feedbacks_failure_is_empty_list :
  run (fetch_feedbacks (net_status 500 (Ok (VStr "Internal Server Error"))) sample_cfg 100)
    = (Ok (VList []), []) ∧
  run (fetch_feedbacks (net_status 200 (Ok (VList []))) sample_cfg 100)
    = (Ok (VList []), []) ∧
  (run (fetch_feedbacks net_down sample_cfg 100)).1 = Ok (VList []).
Proof. repeat split. Qed.

(** C1, amended: fetch_analytics and fetch_feedbacks never raise.  On a
    200 response whose body parses they return the body and show no
    banner.  On every failure (no connection, timeout, non-200 status,
    malformed body) they return their default, None for fetch_analytics
    and the empty list for fetch_feedbacks, whatever the kind of failure,
    with an st.error banner unless the failure is a non-200 status. *)
Theorem fetch_failures_return_defaults (requests_get : network) (cfg : config)
    (limit : Z) :
  (∃ v banners,
     run (fetch_analytics requests_get cfg) = (Ok v, banners) ∧
     (∀ k, classify (requests_get (analytics_request cfg)) = Some k →
        v = VNone ∧ (banners = [] ↔ k = BadStatus)) ∧
     (classify (requests_get (analytics_request cfg)) = None →
        banners = [] ∧
        ∃ r, requests_get (analytics_request cfg) = Ok r ∧ json r = Ok v)) ∧
  (∃ v banners,
     run (fetch_feedbacks requests_get cfg limit) = (Ok v, banners) ∧
     (∀ k, classify (requests_get (feedbacks_request cfg limit)) = Some k →
        v = VList [] ∧ (banners = [] ↔ k = BadStatus)) ∧
     (classify (requests_get (feedbacks_request cfg limit)) = None →
        banners = [] ∧
        ∃ r, requests_get (feedbacks_request cfg limit) = Ok r ∧ json r = Ok v)).
Proof.
  split.
  - rewrite fetch_analytics_run. unfold classify.
    destruct (requests_get (analytics_request cfg)) as [r|e].
    + destruct (status_code r =? 200).
      * destruct (json r) as [v|e] eqn:Ej; do 2 eexists; (split; [reflexivity|]); split.
        -- discriminate.
        -- intros _. split; [reflexivity|]. now exists r.
        -- intros k [= <-]. split; [reflexivity|]. split; discriminate.
        -- discriminate.
      * do 2 eexists; (split; [reflexivity|]); split; [|discriminate].
        intros k [= <-]. now split.
    + do 2 eexists; (split; [reflexivity|]); split; [|now destruct e].
      intros k Hk. split; [reflexivity|].
      split; [discriminate|]. intros ->. now destruct e.
  - rewrite fetch_feedbacks_run. unfold classify.
    destruct (requests_get (feedbacks_request cfg limit)) as [r|e].
    + destruct (status_code r =? 200).
      * destruct (json r) as [v|e] eqn:Ej; do 2 eexists; (split; [reflexivity|]); split.
        -- discriminate.
        -- intros _. split; [reflexivity|]. now exists r.
        -- intros k [= <-]. split; [reflexivity|]. split; discriminate.
        -- discriminate.
      * do 2 eexists; (split; [reflexivity|]); split; [|discriminate].
        intros k [= <-]. now split.
    + do 2 eexists; (split; [reflexivity|]); split; [|now destruct e].
      intros k Hk. split; [reflexivity|].
      split; [discriminate|]. intros ->. now destruct e.
Qed.

(** ** The authentication gate *)

Lemma key_matches_true api_key_input key :
  key_matches api_key_input key = true ↔ key = Some api_key_input.
Proof.
  destruct key as [k|]; simpl.
  - rewrite String.eqb_eq. split; [now intros -> | now intros [= ->]].
  - split; discriminate.
Qed.

(** C10: from a session that is not authenticated, pressing AUTHENTICATE
    sets the authenticated flag if and only if the configured API_KEY is
    the entered string; when API_KEY is unset (None) no entered string sets
    it, and without the button press nothing changes. *)
Theorem auth_gate_grants_iff_equal (cfg : config) (api_key_input : string)
    (ss : session_state) :
  authenticated ss = false →
  (authenticated (render_auth_screen cfg api_key_input true ss).1 = true
     ↔ API_KEY cfg = Some api_key_input) ∧
  (API_KEY cfg = None →
     authenticated (render_auth_screen cfg api_key_input true ss).1 = false) ∧
  (render_auth_screen cfg api_key_input false ss).1 = ss.
Proof.
  intros Hss. unfold render_auth_screen.
  pose proof (key_matches_true api_key_input (API_KEY cfg)) as Hk.
  destruct (key_matches api_key_input (API_KEY cfg)); simpl; repeat split.
  - intros _. now apply Hk.
  - intros E. destruct Hk as [Hk _]. rewrite E in Hk. now specialize (Hk eq_refl).
  - rewrite Hss. discriminate.
  - intros E. now apply Hk in E.
  - intros _. exact Hss.
Qed.

Lemma auth_gate_grants_iff_equal_witness :
  (authenticated
     (render_auth_screen sample_cfg "s3cret" true {| authenticated := false |}).1 = true
   ↔ API_KEY sample_cfg = Some "s3cret") ∧
  (API_KEY sample_cfg = None →
     authenticated
       (render_auth_screen sample_cfg "s3cret" true {| authenticated := false |}).1
     = false) ∧
  (render_auth_screen sample_cfg "s3cret" false {| authenticated := false |}).1
  = {| authenticated := false |}.
Proof.
  exact (auth_gate_grants_iff_equal sample_cfg "s3cret" {| authenticated := false |}
           eq_refl).
Defined.

(** ** The lexicographic order on strings *)

Lemma ascii_compare_refl c : Ascii.compare c c = Eq.
Proof. unfold Ascii.compare. apply N.compare_refl. Qed.

Lemma string_compare_refl s : String.compare s s = Eq.
Proof. induction s as [|c s IH]; simpl; [reflexivity | now rewrite ascii_compare_refl]. Qed.

Lemma string_compare_lt_trans a : ∀ b c,
  String.compare a b = Lt → String.compare b c = Lt → String.compare a c = Lt.
Proof.
  induction a as [|x a IH]; intros [|y b] [|z c]; simpl; try discriminate; try reflexivity.
  destruct (Ascii.compare x y) eqn:Exy; try discriminate;
    destruct (Ascii.compare y z) eqn:Eyz; try discriminate; intros H1 H2.
  - apply Ascii.compare_eq_iff in Exy as ->. rewrite Eyz. now apply IH with b.
  - apply Ascii.compare_eq_iff in Exy as ->. now rewrite Eyz.
  - apply Ascii.compare_eq_iff in Eyz as <-. now rewrite Exy.
  - unfold Ascii.compare in *.
    rewrite N.compare_lt_iff in Exy, Eyz.
    assert (E : (N_of_ascii x ?= N_of_ascii z)%N = Lt) by (apply N.compare_lt_iff; lia).
    now rewrite E.
Qed.

Lemma string_leb_cases a b :
  String.leb a b = true ↔ a = b ∨ String.compare a b = Lt.
Proof.
  unfold String.leb. split.
  - destruct (String.compare a b) eqn:E; try discriminate; intros _.
    + left. now apply String.compare_eq_iff.
    + now right.
  - intros [-> | ->]; [now rewrite string_compare_refl | reflexivity].
Qed.

Lemma string_leb_trans a b c :
  String.leb a b = true → String.leb b c = true → String.leb a c = true.
Proof.
  rewrite !string_leb_cases.
  intros [-> | H1] [-> | H2]; auto.
  right. now apply string_compare_lt_trans with b.
Qed.

Lemma string_ltb_leb a b : String.ltb a b = true → String.leb a b = true.
Proof.
  unfold String.ltb, String.leb. now destruct (String.compare a b).
Qed.

Lemma string_ltb_false_leb a b : String.ltb a b = false → String.leb b a = true.
Proof.
  unfold String.ltb, String.leb. rewrite (String.compare_antisym a b).
  now destruct (String.compare b a).
Qed.

(** Nothing is below the empty string. *)
Lemma string_leb_empty s : String.leb s "" = true → s = "".
Proof. destruct s; [reflexivity | discriminate]. Qed.

(** ** Facts about the sort *)

Lemma key_ge_trans p q r : key_ge p q → key_ge q r → key_ge p r.
Proof. unfold key_ge. intros H1 H2. now apply string_leb_trans with (str_of q.1). Qed.

(** In a strongly sorted list the relation holds between any two
    positions in order. *)
Lemma StronglySorted_lookup {A} (R : relation A) l :
  StronglySorted R l →
  ∀ i j x y, (i < j)%nat → l !! i = Some x → l !! j = Some y → R x y.
Proof.
  induction 1 as [|a l Hl IH Ha]; intros i j x y Hij Hi Hj.
  - now rewrite lookup_nil in Hi.
  - destruct j as [|j]; [lia|]. simpl in Hj.
    destruct i as [|i]; simpl in Hi.
    + injection Hi as <-. rewrite Forall_forall in Ha.
      apply Ha. now apply list_elem_of_lookup_2 in Hj.
    + apply (IH i j); [lia | assumption | assumption].
Qed.

(** The sort key of a record holds the text of its created_at field. *)
Lemma str_of_created_at_key x : str_of (created_at_key x) = text_of x "created_at".
Proof.
  unfold created_at_key, dict_get, text_of.
  now destruct (x !! "created_at") as [[| | |s| |]|].
Qed.

Lemma all_records_fmap records : all_records (VDict <$> records) = Ok records.
Proof.
  induction records as [|d l IH]; [reflexivity|].
  rewrite fmap_cons. cbn [all_records as_record].
  rewrite IH. reflexivity.
Qed.

Section SortedFacts.
Variable py_lt : value → value → result bool.
Hypothesis Hlt : lt_on_strs py_lt.

Lemma insert_desc_sorted kx : ∀ l,
  has_str_key kx → Forall has_str_key l → StronglySorted key_ge l →
  ∃ r, insert_desc py_lt kx l = Ok r ∧ kx :: l ≡ₚ r ∧ StronglySorted key_ge r.
Proof.
  intros l [a Ha]. induction l as [|ky l IH]; intros Hks Hs; simpl.
  - exists [kx]. repeat split; repeat constructor.
  - apply Forall_cons in Hks as [[b Hb] Hks].
    apply StronglySorted_inv in Hs as [Hs Hky].
    rewrite Ha, Hb, Hlt. simpl.
    destruct (String.ltb a b) eqn:E.
    + destruct (IH Hks Hs) as (r & -> & Hp & Hr). simpl.
      exists (ky :: r). split; [reflexivity|]. split.
      * rewrite <- Hp. apply perm_swap.
      * constructor; [assumption|].
        eapply Permutation_Forall; [exact Hp|].
        constructor; [|assumption].
        unfold key_ge. rewrite Ha, Hb. simpl. now apply string_ltb_leb.
    + exists (kx :: ky :: l). split; [reflexivity|]. split; [reflexivity|].
      assert (Hxy : key_ge kx ky).
      { unfold key_ge. rewrite Ha, Hb. simpl. now apply string_ltb_false_leb. }
      constructor; [now constructor|].
      constructor; [assumption|].
      eapply Forall_impl; [exact Hky|].
      intros z Hz. now apply key_ge_trans with ky.
Qed.

Lemma sort_desc_sorted l :
  Forall has_str_key l →
  ∃ r, sort_desc py_lt l = Ok r ∧ l ≡ₚ r ∧ StronglySorted key_ge r.
Proof.
  induction l as [|kx l IH]; intros Hks; simpl.
  - exists []. repeat split; constructor.
  - apply Forall_cons in Hks as [Hk Hks].
    destruct (IH Hks) as (s & -> & Hp & Hs). simpl.
    destruct (insert_desc_sorted kx s Hk) as (r & Hr & Hp' & Hs');
      [eapply Permutation_Forall; eassumption | assumption |].
    exists r. split; [assumption|]. split; [|assumption].
    rewrite <- Hp'. now constructor.
Qed.

(** On records whose created_at is missing or text, the sort returns a
    rearrangement of its input in descending created_at order. *)
Lemma sorted_reverse_newest_first records :
  Forall (λ fb, text_or_absent fb "created_at") records →
  ∃ feedbacks,
    sorted_reverse py_lt created_at_key records = Ok feedbacks ∧
    records ≡ₚ feedbacks ∧ newest_first feedbacks.
Proof.
  intros Hca. unfold sorted_reverse.
  set (dec := map (λ x, (created_at_key x, x)) records).
  assert (Hdec : Forall (λ p : value * record, p.1 = created_at_key p.2) dec).
  { unfold dec. apply Forall_forall. intros p Hp.
    apply list_elem_of_In, in_map_iff in Hp as (x & <- & _). reflexivity. }
  assert (Hks : Forall has_str_key dec).
  { unfold dec. apply Forall_forall. intros p Hp.
    apply list_elem_of_In, in_map_iff in Hp as (x & <- & Hx).
    rewrite Forall_forall in Hca. apply list_elem_of_In in Hx.
    unfold has_str_key, created_at_key, dict_get. simpl.
    destruct (Hca x Hx) as [-> | [s ->]]; simpl; eauto. }
  destruct (sort_desc_sorted dec Hks) as (s & -> & Hp & Hs). simpl.
  exists (map snd s). split; [reflexivity|]. split.
  - replace records with (map snd dec).
    + now apply Permutation_map.
    + unfold dec. rewrite map_map. simpl. apply map_id.
  - intros i j x y Hij Hi Hj.
    change (map snd s) with (snd <$> s) in Hi, Hj.
    rewrite list_lookup_fmap in Hi, Hj.
    destruct (s !! i) as [p|] eqn:Ei; [|discriminate].
    destruct (s !! j) as [p'|] eqn:Ej; [|discriminate].
    simpl in Hi, Hj. injection Hi as <-. injection Hj as <-.
    pose proof (StronglySorted_lookup key_ge s Hs i j p p' Hij Ei Ej) as Hge.
    assert (Hs' : Forall (λ p : value * record, p.1 = created_at_key p.2) s)
      by (eapply Permutation_Forall; eassumption).
    rewrite Forall_forall in Hs'.
    unfold key_ge in Hge.
    rewrite (Hs' p), (Hs' p'), !str_of_created_at_key in Hge;
      [assumption | now apply list_elem_of_lookup_2 in Ej
                  | now apply list_elem_of_lookup_2 in Ei].
Qed.
(** The sort is stable: the elements with a given key keep their order. *)
Lemma insert_desc_stable kx : ∀ l r,
  has_str_key kx → Forall has_str_key l →
  insert_desc py_lt kx l = Ok r →
  ∀ k, List.filter (key_is k) r = List.filter (key_is k) (kx :: l).
Proof.
  intros l r [a Ha]. revert r.
  induction l as [|ky l IH]; intros r Hks Hr k; simpl in Hr.
  - now injection Hr as <-.
  - apply Forall_cons in Hks as [[b Hb] Hks].
    rewrite Ha, Hb, Hlt in Hr. simpl in Hr.
    destruct (String.ltb a b) eqn:E; [|now injection Hr as <-].
    destruct (insert_desc py_lt kx l) as [r'|e] eqn:Er; simpl in Hr; [|discriminate].
    injection Hr as <-. specialize (IH r' Hks eq_refl k).
    cbn [List.filter] in IH |- *. rewrite IH.
    destruct (key_is k kx) eqn:Ex, (key_is k ky) eqn:Ey; try reflexivity.
    unfold key_is in Ex, Ey. rewrite Ha in Ex. rewrite Hb in Ey. simpl in Ex, Ey.
    apply String.eqb_eq in Ex, Ey. subst a b.
    unfold String.ltb in E. now rewrite string_compare_refl in E.
Qed.

Lemma sort_desc_stable l : ∀ r,
  Forall has_str_key l → sort_desc py_lt l = Ok r →
  ∀ k, List.filter (key_is k) r = List.filter (key_is k) l.
Proof.
  induction l as [|kx l IH]; intros r Hks Hr k; simpl in Hr.
  - now injection Hr as <-.
  - apply Forall_cons in Hks as [Hk Hks].
    destruct (sort_desc_sorted l Hks) as (s & Es & Hp & _).
    rewrite Es in Hr. simpl in Hr.
    rewrite (insert_desc_stable kx s r Hk
               (Permutation_Forall Hp Hks) Hr k).
    cbn [List.filter]. now rewrite (IH s Hks Es k).
Qed.

(** For the sort of main: records with the same created_at text stay in
    the order in which they were fetched. *)
Lemma sorted_reverse_stable records feedbacks :
  Forall (λ fb, text_or_absent fb "created_at") records →
  sorted_reverse py_lt created_at_key records = Ok feedbacks →
  ∀ k, List.filter (created_at_is k) feedbacks = List.filter (created_at_is k) records.
Proof.
  intros Hca Hs k. unfold sorted_reverse in Hs.
  set (dec := map (λ x, (created_at_key x, x)) records) in Hs.
  assert (Hdec : Forall (λ p : value * record, p.1 = created_at_key p.2) dec).
  { unfold dec. apply Forall_forall. intros p Hp.
    apply list_elem_of_In, in_map_iff in Hp as (x & <- & _). reflexivity. }
  assert (Hks : Forall has_str_key dec).
  { unfold dec. apply Forall_forall. intros p Hp.
    apply list_elem_of_In, in_map_iff in Hp as (x & <- & Hx).
    rewrite Forall_forall in Hca. apply list_elem_of_In in Hx.
    unfold has_str_key, created_at_key, dict_get. simpl.
    destruct (Hca x Hx) as [-> | [s ->]]; simpl; eauto. }
  destruct (sort_desc_sorted dec Hks) as (s & Es & Hp & _).
  rewrite Es in Hs. simpl in Hs. injection Hs as <-.
  assert (Hs' : Forall (λ p : value * record, p.1 = created_at_key p.2) s)
    by (eapply Permutation_Forall; eassumption).
  assert (Hmap : ∀ l, Forall (λ p : value * record, p.1 = created_at_key p.2) l →
            List.filter (created_at_is k) (map snd l)
            = map snd (List.filter (key_is k) l)).
  { induction 1 as [|p l Hp' _ IH]; [reflexivity|].
    cbn [map List.filter]. rewrite IH.
    assert (E : key_is k p = created_at_is k p.2).
    { unfold key_is, created_at_is. now rewrite Hp', str_of_created_at_key. }
    rewrite E. now destruct (created_at_is k p.2). }
  rewrite (Hmap s Hs'), (sort_desc_stable dec s Hks Es k), <- (Hmap dec Hdec).
  unfold dec. rewrite map_map. simpl. now rewrite map_id.
Qed.
End SortedFacts.

(** ** Properties of the feedback section of main *)

(** The loop logs the cards of the records before the first failure, and
    ends as [loop_outcome] says. *)
Lemma render_items_run items : ∀ idx out,
  render_items idx items out =
  (loop_outcome items,
   out ++ imap (λ i fb, FeedbackItem fb (idx + i)) (rendered_before_failure items)).
Proof.
  induction items as [|fb items IH]; intros idx out; simpl.
  - now rewrite app_nil_r.
  - unfold mbind, io_bind, lift, emit.
    change (render_feedback_item fb idx) with (render_feedback_item fb 0).
    destruct (render_feedback_item fb 0) as [c|e]; [|now rewrite app_nil_r].
    rewrite IH, <- app_assoc. simpl.
    rewrite Nat.add_0_r. do 3 f_equal.
    apply imap_ext. intros i x _. simpl. f_equal. lia.
Qed.





(** What the feedback section does once a non-empty list of records has
    been fetched and sorted: it filters the sorted list, reports the two
    lengths, and hands the first 20 filtered records to the rendering, one
    after the other, until one raises. *)
Lemma feedback_section_run py_lt requests_get cfg rf sf q records feedbacks :
  requests_get (feedbacks_request cfg 100)
    = Ok {| status_code := 200; json := Ok (VList (VDict <$> records)) |} →
  records ≠ [] →
  sorted_reverse py_lt created_at_key records = Ok feedbacks →
  run (feedback_section py_lt requests_get cfg rf sf q) =
  match filter_feedbacks feedbacks rf sf q with
  | Ok filtered =>
      (loop_outcome (take 20 filtered),
       StatsBar (length filtered) (length feedbacks)
         :: imap (λ i fb, FeedbackItem fb i)
              (rendered_before_failure (take 20 filtered)))
  | Raise e => (Raise e, [])
  end.
Proof.
  intros Hget Hne Hsort.
  unfold run, feedback_section. unfold mbind at 1. unfold io_bind.
  change (fetch_feedbacks requests_get cfg 100 [])
    with (run (fetch_feedbacks requests_get cfg 100)).
  rewrite fetch_feedbacks_run, Hget. simpl status_code. simpl json.
  change (200 =? 200) with true. cbv iota.
  assert (Ht : truthy (VList (VDict <$> records)) = true)
    by (destruct records; [contradiction | reflexivity]).
  rewrite Ht. unfold records_of. rewrite all_records_fmap.
  unfold mbind, io_bind, lift. rewrite Hsort.
  destruct (filter_feedbacks feedbacks rf sf q) as [filtered|e]; [|reflexivity].
  unfold emit. rewrite render_items_run. reflexivity.
Qed.

Lemma py_lt_str_on_strs : lt_on_strs py_lt_str.
Proof. intros a b. reflexivity. Qed.

(** C8: when a non-empty list of records has been fetched and every
    created_at is text or missing, the feedback section sorts the whole
    list before it filters: the sorted list is a rearrangement of the
    fetched one in descending created_at order, a missing created_at
    counting as the empty string, so that after a record without
    created_at only records with an empty or missing created_at follow;
    filter_feedbacks is then run on that sorted list, and what it returns
    goes to the stats bar and, its first 20 records, to the loop over the
    cards; an exception of the filter ends the section. *)
Theorem feedbacks_sorted_before_filtering
    (py_lt : value → value → result bool) (requests_get : network) (cfg : config)
    (rf : list Z) (sf : list string) (q : string) (records : list record) :
  lt_on_strs py_lt →
  requests_get (feedbacks_request cfg 100)
    = Ok {| status_code := 200; json := Ok (VList (VDict <$> records)) |} →
  records ≠ [] →
  Forall (λ fb, text_or_absent fb "created_at") records →
  ∃ feedbacks,
    sorted_reverse py_lt created_at_key records = Ok feedbacks ∧
    records ≡ₚ feedbacks ∧
    newest_first feedbacks ∧
    (∀ i j x y, (i < j)%nat → feedbacks !! i = Some x → feedbacks !! j = Some y →
       x !! "created_at" = None → text_of y "created_at" = "") ∧
    run (feedback_section py_lt requests_get cfg rf sf q) =
      match filter_feedbacks feedbacks rf sf q with
      | Ok filtered =>
          render_items 0 (take 20 filtered)
            [StatsBar (length filtered) (length feedbacks)]
      | Raise e => (Raise e, [])
      end.
Proof.
  intros Hlt Hget Hne Hca.
  destruct (sorted_reverse_newest_first py_lt Hlt records Hca) as (feedbacks & Hs & Hp & Hnf).
  exists feedbacks. repeat split; try assumption.
  - intros i j x y Hij Hi Hj Hx.
    pose proof (Hnf i j x y Hij Hi Hj) as Hle.
    unfold text_of in Hle at 2. rewrite Hx in Hle.
    now apply string_leb_empty.
  - rewrite (feedback_section_run py_lt requests_get cfg rf sf q records feedbacks
               Hget Hne Hs).
    destruct (filter_feedbacks feedbacks rf sf q) as [filtered|e]; [|reflexivity].
    now rewrite render_items_run.
Qed.

Lemma feedbacks_sorted_before_filtering_witness :
  ∃ feedbacks,
    sorted_reverse py_lt_str created_at_key [january 0; bad_bug; january 1]
      = Ok feedbacks ∧
    [january 0; bad_bug; january 1] ≡ₚ feedbacks ∧
    newest_first feedbacks ∧
    (∀ i j x y, (i < j)%nat → feedbacks !! i = Some x → feedbacks !! j = Some y →
       x !! "created_at" = None → text_of y "created_at" = "") ∧
    run (feedback_section py_lt_str
           (net_status 200 (Ok (VList (VDict <$> [january 0; bad_bug; january 1]))))
           sample_cfg all_ratings all_sentiments "") =
      match filter_feedbacks feedbacks all_ratings all_sentiments "" with
      | Ok filtered =>
          render_items 0 (take 20 filtered)
            [StatsBar (length filtered) (length feedbacks)]
      | Raise e => (Raise e, [])
      end.
Proof.
  apply (feedbacks_sorted_before_filtering py_lt_str
           (net_status 200 (Ok (VList (VDict <$> [january 0; bad_bug; january 1]))))
           sample_cfg all_ratings all_sentiments "" [january 0; bad_bug; january 1]).
  - exact py_lt_str_on_strs.
  - reflexivity.
  - discriminate.
  - repeat (apply List.Forall_cons; [solve_text_or_absent|]). apply List.Forall_nil.
Defined.

(** The sort on these three records: newest first, the record without
    created_at last. *)
Example sorted_reverse_three :
  sorted_reverse py_lt_str created_at_key [january 0; bad_bug; january 1]
  = Ok [january 1; january 0; bad_bug].
Proof. reflexivity. Qed.





(** The sort-then-cap test of the spec: of 25 records with distinct
    created_at that all pass the filter, the 20 most recent are rendered,
    newest first, and the stats bar says 25 of 25. *)
Example sort_then_cap_25 :
  run (feedback_section py_lt_str
         (net_status 200 (Ok (VList (VDict <$> stream 25))))
         sample_cfg all_ratings all_sentiments "") =
  (Ok tt, StatsBar 25 25
            :: imap (λ i fb, FeedbackItem fb i) (january <$> reverse (seq 5 20))).
Proof. vm_compute. reflexivity. Qed.

(** ** Further properties of normalize_sentiment and filter_feedbacks *)

(** X1: full stops added at the end of a sentiment do not change what
    normalize_sentiment returns. *)
Theorem normalize_sentiment_ignores_trailing_dots (fb fb' : record)
    (s : string) (k : nat) :
  fb !! "sentiment" = Some (VStr s) →
  fb' !! "sentiment" = Some (VStr (s +:+ dots k)) →
  normalize_sentiment fb' = normalize_sentiment fb.
Proof.
  intros H H'.
  rewrite (normalize_sentiment_text fb s H), (normalize_sentiment_text fb' _ H').
  now rewrite rstrip_app_dots.
Qed.

Lemma normalize_sentiment_ignores_trailing_dots_witness :
  normalize_sentiment {[ "sentiment" := VStr "Negative..." ]}
  = normalize_sentiment {[ "sentiment" := VStr "Negative" ]}.
Proof.
  exact (normalize_sentiment_ignores_trailing_dots
           {[ "sentiment" := VStr "Negative" ]} {[ "sentiment" := VStr "Negative..." ]}
           "Negative" 3 eq_refl eq_refl).
Defined.

(** X2: filtering is idempotent: whenever filter_feedbacks returns a list,
    filtering that list again with the same criteria returns it
    unchanged. *)
Theorem filter_feedbacks_idempotent (fbs out : list record) (rf : list Z)
    (sf : list string) (q : string) :
  filter_feedbacks fbs rf sf q = Ok out →
  filter_feedbacks out rf sf q = Ok out.
Proof.
  revert out. induction fbs as [|fb fbs IH]; intros out H; simpl in H.
  - now injection H as <-.
  - destruct (keeps rf sf q fb) as [b|e] eqn:Ek; simpl in H; [|discriminate].
    destruct (filter_feedbacks fbs rf sf q) as [out'|e]; simpl in H; [|discriminate].
    injection H as <-. specialize (IH out' eq_refl).
    destruct b; [|assumption].
    cbn [filter_feedbacks]. now rewrite Ek, IH.
Qed.

Lemma filter_feedbacks_idempotent_witness :
  filter_feedbacks [bad_bug] [1; 5] ["Positive"; "Negative"] "bug" = Ok [bad_bug].
Proof.
  exact (filter_feedbacks_idempotent [great_app; bad_bug] [bad_bug] [1; 5]
           ["Positive"; "Negative"] "bug" eq_refl).
Defined.

Lemma is_empty_lower q : PyStr.is_empty (PyStr.lower q) = PyStr.is_empty q.
Proof. now destruct q. Qed.

Lemma keeps_query_case rf sf q q' fb :
  PyStr.lower q = PyStr.lower q' → keeps rf sf q fb = keeps rf sf q' fb.
Proof.
  intros E. unfold keeps, query_in_field.
  rewrite <- (is_empty_lower q), <- (is_empty_lower q'), E. reflexivity.
Qed.

(** X3: the search ignores the letter case of the query: two queries that
    are equal once lowercased give the same result, exceptions
    included. *)
Theorem filter_feedbacks_query_case_insensitive (fbs : list record)
    (rf : list Z) (sf : list string) (q q' : string) :
  PyStr.lower q = PyStr.lower q' →
  filter_feedbacks fbs rf sf q = filter_feedbacks fbs rf sf q'.
Proof.
  intros E. induction fbs as [|fb fbs IH]; [reflexivity|].
  cbn [filter_feedbacks]. now rewrite IH, (keeps_query_case rf sf q q' fb E).
Qed.

Lemma filter_feedbacks_query_case_insensitive_witness :
  filter_feedbacks [great_app; bad_bug] all_ratings all_sentiments "BuG"
  = filter_feedbacks [great_app; bad_bug] all_ratings all_sentiments "bUg".
Proof.
  exact (filter_feedbacks_query_case_insensitive [great_app; bad_bug] all_ratings
           all_sentiments "BuG" "bUg" eq_refl).
Defined.

Lemma selected_weaken rf rf' sf sf' q fb :
  rf ⊆ rf' → sf ⊆ sf' → selected rf sf q fb → selected rf' sf' "" fb.
Proof.
  intros Hrf Hsf ((r & n & Hr & Hn & E) & (s & Hs & Hin) & _).
  repeat split.
  - exists r, n. auto.
  - exists s. auto.
  - now left.
Qed.

(** X4: widening the two filters and clearing the search box never loses
    a record: whenever both calls return, the narrower result is a
    subsequence of the wider one. *)
Theorem filter_feedbacks_narrowing (fbs out out' : list record)
    (rf rf' : list Z) (sf sf' : list string) (q : string) :
  rf ⊆ rf' → sf ⊆ sf' →
  filter_feedbacks fbs rf sf q = Ok out →
  filter_feedbacks fbs rf' sf' "" = Ok out' →
  out `sublist_of` out'.
Proof.
  intros Hrf Hsf. revert out out'.
  induction fbs as [|fb fbs IH]; intros out out' H H'; simpl in H, H'.
  - injection H as <-. injection H' as <-. constructor.
  - destruct (keeps rf sf q fb) as [b|e] eqn:Ek; simpl in H; [|discriminate].
    destruct (keeps rf' sf' "" fb) as [b'|e] eqn:Ek'; simpl in H'; [|discriminate].
    destruct (filter_feedbacks fbs rf sf q) as [o|e]; simpl in H; [|discriminate].
    destruct (filter_feedbacks fbs rf' sf' "") as [o'|e]; simpl in H'; [|discriminate].
    injection H as <-. injection H' as <-. specialize (IH o o' eq_refl eq_refl).
    destruct b.
    + assert (b' = true) as ->.
      { apply (keeps_Ok _ _ _ _ _ Ek').
        apply (selected_weaken rf rf' sf sf' q); auto.
        now apply (keeps_Ok _ _ _ _ _ Ek). }
      now constructor.
    + destruct b'; [now constructor | assumption].
Qed.

Lemma filter_feedbacks_narrowing_witness :
  [bad_bug] `sublist_of` [great_app; bad_bug].
Proof.
  apply (filter_feedbacks_narrowing [great_app; bad_bug] [bad_bug] [great_app; bad_bug]
           [1] all_ratings ["Negative"] all_sentiments "bug").
  - intros n Hn. apply list_elem_of_In. apply list_elem_of_In in Hn.
    destruct Hn as [<- | []]. now left.
  - intros s Hs. apply list_elem_of_In. apply list_elem_of_In in Hs.
    destruct Hs as [<- | []]. right. right. now left.
  - reflexivity.
  - reflexivity.
Defined.

(** A record on which the condition raises makes the whole call raise, if
    the records before it are well-formed. *)
Lemma filter_feedbacks_raises_at rf sf q pre fb post e :
  Forall well_formed pre →
  keeps rf sf q fb = Raise e →
  filter_feedbacks (pre ++ fb :: post) rf sf q = Raise e.
Proof.
  intros Hpre Hk. induction Hpre as [|x pre Hx _ IH]; simpl.
  - now rewrite Hk.
  - destruct (keeps_total rf sf q x Hx) as [b ->]. simpl. now rewrite IH.
Qed.

(** X5: one record without a rating makes filter_feedbacks raise KeyError,
    wherever it stands in the list and whatever the filters are (the
    records before it being well-formed). *)
Theorem filter_feedbacks_missing_rating_anywhere (pre post : list record)
    (fb : record) (rf : list Z) (sf : list string) (q : string) :
  Forall well_formed pre →
  fb !! "rating" = None →
  filter_feedbacks (pre ++ fb :: post) rf sf q = Raise (KeyError "rating").
Proof.
  intros Hpre Hr. apply filter_feedbacks_raises_at; [assumption|].
  unfold keeps, subscript. now rewrite Hr.
Qed.

Lemma filter_feedbacks_missing_rating_anywhere_witness :
  filter_feedbacks ([great_app; bad_bug] ++ {[ "review" := VStr "fine" ]} :: [great_app])
    [] [] "" = Raise (KeyError "rating").
Proof.
  exact (filter_feedbacks_missing_rating_anywhere [great_app; bad_bug] [great_app]
           {[ "review" := VStr "fine" ]} [] [] "" sample_well_formed eq_refl).
Defined.

(** With an empty query the condition reads the rating and the sentiment
    only. *)
Lemma keeps_empty_query_total rf sf fb :
  is_Some (fb !! "rating") → text_or_absent fb "sentiment" →
  is_ok (keeps rf sf "" fb).
Proof.
  intros [r Hr] Hs. unfold keeps, subscript. rewrite Hr. simpl.
  destruct (in_ints r rf); [|now eexists].
  destruct (normalize_sentiment_total fb Hs) as [s ->]. simpl.
  destruct (in_strs s sf); now eexists.
Qed.

(** X6: with an empty search box filter_feedbacks never reads review or
    ai_summary: on records that carry a rating and whose sentiment is
    missing or text it returns, whatever those two fields hold, exactly
    the records whose rating and normalized sentiment are selected. *)
Theorem filter_feedbacks_empty_query (fbs : list record) (rf : list Z)
    (sf : list string) :
  Forall (λ fb, is_Some (fb !! "rating") ∧ text_or_absent fb "sentiment") fbs →
  ∃ out, filter_feedbacks fbs rf sf "" = Ok out ∧
         ∀ fb, fb ∈ out ↔
               fb ∈ fbs ∧ rating_selected fb rf ∧ sentiment_selected fb sf.
Proof.
  intros Hfbs.
  assert (Hok : is_ok (filter_feedbacks fbs rf sf "")).
  { induction Hfbs as [|fb fbs [Hr Hs] _ IH]; simpl; [now eexists|].
    destruct (keeps_empty_query_total rf sf fb Hr Hs) as [b ->].
    destruct IH as [out ->]. simpl. now eexists. }
  destruct Hok as [out E]. exists out. split; [assumption|].
  intros fb. rewrite (filter_feedbacks_Ok_selected rf sf "" fbs out E fb).
  unfold selected, query_matches. split.
  - intros (? & ? & ? & _). auto.
  - intros (? & ? & ?). repeat split; auto.
Qed.

Lemma filter_feedbacks_empty_query_witness :
  ∃ out, filter_feedbacks [ <["review" := VNone]> great_app ] [5] ["Positive"] ""
         = Ok out ∧
         ∀ fb, fb ∈ out ↔
               fb ∈ [ <["review" := VNone]> great_app ] ∧
               rating_selected fb [5] ∧ sentiment_selected fb ["Positive"].
Proof.
  apply (filter_feedbacks_empty_query [ <["review" := VNone]> great_app ] [5]
           ["Positive"]).
  apply List.Forall_cons; [|apply List.Forall_nil].
  split; [eexists; reflexivity | solve_text_or_absent].
Defined.

(** X7: with a non-empty search box, a record that passes the rating and
    sentiment filters and whose review is not text (a JSON null, say)
    makes filter_feedbacks raise AttributeError, the records before it
    being well-formed. *)
Theorem filter_feedbacks_search_non_text_review (pre post : list record)
    (fb : record) (v : value) (rf : list Z) (sf : list string) (q : string) :
  Forall well_formed pre →
  q ≠ "" →
  rating_selected fb rf →
  sentiment_selected fb sf →
  fb !! "review" = Some v →
  (∀ s, v ≠ VStr s) →
  filter_feedbacks (pre ++ fb :: post) rf sf q = Raise (AttributeError "lower").
Proof.
  intros Hpre Hq (r & n & Hr & Hn & E) (s & Hs & Hin) Hv Hnot.
  apply filter_feedbacks_raises_at; [assumption|].
  unfold keeps, subscript. rewrite Hr. simpl.
  assert (Hi : in_ints r rf = true) by (apply in_ints_true; eauto).
  rewrite Hi, Hs. simpl.
  apply in_strs_true in Hin. rewrite Hin.
  destruct (PyStr.is_empty q) eqn:Eq; [apply is_empty_true in Eq; contradiction|].
  unfold query_in_field, dict_get. rewrite Hv. simpl.
  destruct v; try reflexivity. now destruct (Hnot s0).
Qed.

Lemma filter_feedbacks_search_non_text_review_witness :
  filter_feedbacks ([bad_bug] ++ <["review" := VNone]> great_app :: [])
    [5] ["Positive"] "app"
  = Raise (AttributeError "lower").
Proof.
  apply (filter_feedbacks_search_non_text_review [bad_bug] []
           (<["review" := VNone]> great_app) VNone [5] ["Positive"] "app").
  - apply List.Forall_cons; [solve_well_formed | apply List.Forall_nil].
  - discriminate.
  - exists (VInt 5), 5. repeat split; [apply list_elem_of_In; now left].
  - exists "Positive". split; [reflexivity | apply list_elem_of_In; now left].
  - reflexivity.
  - discriminate.
Defined.

(** The four labels, for a search by [String.eqb]. *)
Lemma in_sentiment_options s :
  s ∈ sentiment_options →
  s = "Positive" ∨ s = "Neutral" ∨ s = "Negative" ∨ s = "Unknown".
Proof.
  intros H. apply list_elem_of_In in H. simpl in H.
  destruct H as [<- | [<- | [<- | [<- | []]]]]; auto.
Qed.

(** X8: whatever the operator selects in the two multiselects, a record
    that filter_feedbacks returns has a rating equal to one of 1..5 and a
    normalized sentiment that is, letter for letter, one of "Positive",
    "Neutral", "Negative", "Unknown"; a record with any other rating or
    label is never displayed. *)
Theorem displayed_records_have_listed_values (w : widgets) (fbs out : list record)
    (fb : record) :
  valid_selection w →
  filter_feedbacks fbs (render_filters w).1.1 (render_filters w).1.2
    (render_filters w).2 = Ok out →
  fb ∈ out →
  (∃ r n, fb !! "rating" = Some r ∧ py_eq_int r n = true ∧ 1 ≤ n ≤ 5) ∧
  (normalize_sentiment fb = Ok "Positive" ∨ normalize_sentiment fb = Ok "Neutral" ∨
   normalize_sentiment fb = Ok "Negative" ∨ normalize_sentiment fb = Ok "Unknown").
Proof.
  intros [Hr Hs] E Hin. simpl in E.
  apply (filter_feedbacks_Ok_selected _ _ _ _ _ E) in Hin
    as (_ & (r & n & Hfr & Hn & Heq) & (s & Hfs & Hsin) & _).
  split.
  - exists r, n. repeat split; try assumption;
      apply Hr, list_elem_of_In in Hn; simpl in Hn;
      destruct Hn as [<- | [<- | [<- | [<- | [<- | []]]]]]; lia.
  - apply Hs, in_sentiment_options in Hsin.
    rewrite Hfs. destruct Hsin as [-> | [-> | [-> | ->]]]; auto.
Qed.

Lemma displayed_records_have_listed_values_witness :
  (∃ r n, bad_bug !! "rating" = Some r ∧ py_eq_int r n = true ∧ 1 ≤ n ≤ 5) ∧
  (normalize_sentiment bad_bug = Ok "Positive" ∨
   normalize_sentiment bad_bug = Ok "Neutral" ∨
   normalize_sentiment bad_bug = Ok "Negative" ∨
   normalize_sentiment bad_bug = Ok "Unknown").
Proof.
  apply (displayed_records_have_listed_values
           {| w_api_key_input := ""; w_authenticate := false;
              w_rating_filter := [1; 5]; w_sentiment_filter := ["Negative"];
              w_date_range := []; w_search := "bug";
              w_auto_refresh := false; w_refresh_rate := 60; w_max_records := 100;
              w_logout := false |}
           [great_app; bad_bug] [bad_bug] bad_bug).
  - split; intros x Hx; apply list_elem_of_In in Hx; apply list_elem_of_In; simpl in *;
      intuition.
  - reflexivity.
  - apply list_elem_of_In. now left.
Defined.

(** ** Further properties of the sort *)

(** X9: the sort of main is stable: it returns on records whose created_at
    is missing or text, and records with the same created_at text (a
    missing one read as "") come out in the order in which they were
    fetched. *)
Theorem sort_keeps_fetch_order_of_equal_dates
    (py_lt : value → value → result bool) (records : list record) :
  lt_on_strs py_lt →
  Forall (λ fb, text_or_absent fb "created_at") records →
  ∃ feedbacks,
    sorted_reverse py_lt created_at_key records = Ok feedbacks ∧
    ∀ k, List.filter (created_at_is k) feedbacks
         = List.filter (created_at_is k) records.
Proof.
  intros Hlt Hca.
  destruct (sorted_reverse_newest_first py_lt Hlt records Hca) as (feedbacks & Hs & _).
  exists feedbacks. split; [assumption|].
  now apply (sorted_reverse_stable py_lt Hlt records feedbacks Hca Hs).
Qed.

Lemma sort_keeps_fetch_order_of_equal_dates_witness :
  ∃ feedbacks,
    sorted_reverse py_lt_str created_at_key [bad_bug; january 0; great_app; january 3]
      = Ok feedbacks ∧
    ∀ k, List.filter (created_at_is k) feedbacks
         = List.filter (created_at_is k) [bad_bug; january 0; great_app; january 3].
Proof.
  apply (sort_keeps_fetch_order_of_equal_dates py_lt_str
           [bad_bug; january 0; great_app; january 3] py_lt_str_on_strs).
  repeat (apply List.Forall_cons; [solve_text_or_absent|]). apply List.Forall_nil.
Defined.

(** The two records without created_at stay in their fetched order, after
    the dated ones. *)
Example sorted_reverse_ties :
  sorted_reverse py_lt_str created_at_key [bad_bug; january 0; great_app; january 3]
  = Ok [january 3; january 0; bad_bug; great_app].
Proof. reflexivity. Qed.

(** ** Properties of render_feedback_item *)

Lemma as_int_ok_iff v : is_ok (as_int v) ↔ int_like v.
Proof.
  destruct v; simpl; split; try (intros [r H]; discriminate);
    try contradiction; try (intros _; now eexists); intros _; exact I.
Qed.

Lemma slice10_ok_iff v : is_ok (slice10 v) ↔ sliceable v.
Proof.
  destruct v; simpl; split; try (intros [r H]; discriminate);
    try contradiction; try (intros _; now eexists); intros _; exact I.
Qed.

(** X10: render_feedback_item returns a card only when the sentiment is
    missing or text, the rating is there and is an int or a bool,
    created_at is there and is a str or a list, and review is there; and
    on a record that meets these conditions and whose rating, when it is
    an int, lies between [- star_limit] and [star_limit], so that the star
    bar, of at most [star_limit + 5] symbols, fits in memory, it does
    return one. *)
Theorem render_feedback_item_returns_iff (fb : record) (idx : nat) :
  (is_ok (render_feedback_item fb idx) →
   text_or_absent fb "sentiment" ∧
   (∃ r, fb !! "rating" = Some r ∧ int_like r) ∧
   (∃ c, fb !! "created_at" = Some c ∧ sliceable c) ∧
   is_Some (fb !! "review")) ∧
  ((∀ n, fb !! "rating" = Some (VInt n) → - star_limit ≤ n ≤ star_limit) →
   text_or_absent fb "sentiment" →
   (∃ r, fb !! "rating" = Some r ∧ int_like r) →
   (∃ c, fb !! "created_at" = Some c ∧ sliceable c) →
   is_Some (fb !! "review") →
   ∃ c, render_feedback_item fb idx = Ok c ∧
        Z.of_nat (length (card_stars c)) ≤ star_limit + 5).
Proof.
  split.
  - rewrite <- normalize_sentiment_ok_iff.
    unfold render_feedback_item, star_bar, subscript.
    destruct (normalize_sentiment fb) as [s|e]; simpl; [|intros [c H]; discriminate].
    destruct (fb !! "rating") as [r|]; simpl; [|intros [c H]; discriminate].
    destruct (fb !! "created_at") as [ca|]; simpl; [|intros [c H]; discriminate].
    pose proof (slice10_ok_iff ca) as Hsl.
    destruct (slice10 ca) as [d|e]; simpl; [|intros [c H]; discriminate].
    destruct (fb !! "review") as [rv|]; simpl; [|intros [c H]; discriminate].
    pose proof (as_int_ok_iff r) as Hint.
    destruct (as_int r) as [n|e]; simpl; [|intros [c H]; discriminate].
    intros _. repeat split.
    + now eexists.
    + exists r. split; [reflexivity|]. apply Hint. now eexists.
    + exists ca. split; [reflexivity|]. apply Hsl. now eexists.
    + now eexists.
  - intros Hbound Hs (r & Hr & Hir) (ca & Hca & Hsl) [rv Hrv].
    destruct (normalize_sentiment_total fb Hs) as [s Es].
    apply slice10_ok_iff in Hsl as [d Ed].
    unfold render_feedback_item, star_bar, subscript.
    rewrite Es, Hr, Hca, Hrv. simpl. rewrite Ed. simpl.
    assert (Hn : ∃ n, as_int r = Ok n ∧ - star_limit ≤ n ≤ star_limit).
    { destruct r as [|b|n| | |]; simpl in Hir; try contradiction.
      - exists (Z.b2z b). split; [reflexivity|]. unfold star_limit. destruct b; simpl; lia.
      - exists n. split; [reflexivity|]. now apply Hbound. }
    destruct Hn as (n & -> & Hn). simpl.
    eexists. split; [reflexivity|].
    cbn [card_stars]. rewrite length_app, !repeat_length.
    unfold star_limit in *. lia.
Qed.

Lemma render_feedback_item_returns_iff_witness :
  ∃ c, render_feedback_item bad_bug_dated 0 = Ok c ∧
       Z.of_nat (length (card_stars c)) ≤ star_limit + 5.
Proof.
  apply (proj2 (render_feedback_item_returns_iff bad_bug_dated 0)).
  - intros n H. vm_compute in H. injection H as <-. unfold star_limit. lia.
  - right. eexists. reflexivity.
  - exists (VInt 1). split; [reflexivity | exact I].
  - exists (VStr "2024-03-09T18:02:11Z"). split; [reflexivity | exact I].
  - eexists. reflexivity.
Defined.

(** X11: a record can pass the sort and the filter and still stop the
    rendering: a well-formed record that lacks created_at or review (its
    created_at being text when present) is returned by filter_feedbacks
    when its rating and sentiment are selected and the search box is
    empty, and render_feedback_item raises KeyError on it. *)
Theorem filter_accepts_records_rendering_rejects (fb : record) (rf : list Z)
    (sf : list string) (idx : nat) :
  well_formed fb →
  text_or_absent fb "created_at" →
  fb !! "created_at" = None ∨ fb !! "review" = None →
  selected rf sf "" fb →
  filter_feedbacks [fb] rf sf "" = Ok [fb] ∧
  (render_feedback_item fb idx = Raise (KeyError "created_at") ∨
   render_feedback_item fb idx = Raise (KeyError "review")).
Proof.
  intros Hwf Hca Hmiss Hsel. split.
  - destruct (keeps_total rf sf "" fb Hwf) as [b Hk].
    cbn [filter_feedbacks]. rewrite Hk. simpl.
    destruct b; [reflexivity|].
    apply (keeps_Ok _ _ _ _ _ Hk) in Hsel. discriminate.
  - destruct Hwf as ([r Hr] & Hs & _).
    destruct (normalize_sentiment_total fb Hs) as [s Es].
    unfold render_feedback_item, subscript. rewrite Es, Hr. simpl.
    destruct Hca as [Hca | [t Hca]]; rewrite Hca; simpl; [now left|].
    destruct Hmiss as [Hm | Hm]; [congruence|].
    rewrite Hm. now right.
Qed.

Lemma filter_accepts_records_rendering_rejects_witness :
  filter_feedbacks [bad_bug] [1] ["Negative"] "" = Ok [bad_bug] ∧
  (render_feedback_item bad_bug 0 = Raise (KeyError "created_at") ∨
   render_feedback_item bad_bug 0 = Raise (KeyError "review")).
Proof.
  apply (filter_accepts_records_rendering_rejects bad_bug [1] ["Negative"] 0).
  - solve_well_formed.
  - solve_text_or_absent.
  - now left.
  - repeat split.
    + exists (VInt 1), 1. repeat split; [apply list_elem_of_In; now left].
    + exists "Negative". split; [reflexivity | apply list_elem_of_In; now left].
    + now left.
Defined.

(** X12: for an int rating [n] the star bar of the card is [n] filled
    stars followed by [5 - n] hollow ones, a negative count giving none:
    max(5, n, 5 - n) symbols in all, which is five exactly when
    0 <= n <= 5; a rating outside that range is not clamped and gives a
    longer bar. *)
Theorem star_bar_length (fb : record) (idx : nat) (c : card) (n : Z) :
  render_feedback_item fb idx = Ok c →
  fb !! "rating" = Some (VInt n) →
  card_stars c = repeat Filled (Z.to_nat n) ++ repeat Hollow (Z.to_nat (5 - n)) ∧
  length (card_stars c) = Z.to_nat (Z.max 5 (Z.max n (5 - n))) ∧
  (length (card_stars c) = 5%nat ↔ 0 ≤ n ≤ 5).
Proof.
  intros H Hr. unfold render_feedback_item, subscript in H. rewrite Hr in H.
  destruct (normalize_sentiment fb) as [s|e]; simpl in H; [|discriminate].
  destruct (fb !! "created_at") as [ca|]; simpl in H; [|discriminate].
  destruct (slice10 ca) as [d|e]; simpl in H; [|discriminate].
  destruct (fb !! "review") as [rv|]; simpl in H; [|discriminate].
  injection H as <-. simpl.
  split; [reflexivity|].
  rewrite length_app, !repeat_length. split; [lia|]. split; lia.
Qed.

Lemma star_bar_length_witness :
  ∃ c, render_feedback_item (january 0) 0 = Ok c ∧
       card_stars c = repeat Filled (Z.to_nat 5) ++ repeat Hollow (Z.to_nat (5 - 5)) ∧
       length (card_stars c) = Z.to_nat (Z.max 5 (Z.max 5 (5 - 5))) ∧
       (length (card_stars c) = 5%nat ↔ 0 ≤ 5 ≤ 5).
Proof.
  eexists. split; [reflexivity|].
  exact (star_bar_length (january 0) 0 _ 5 eq_refl eq_refl).
Defined.

(** X13: the colour of a card depends on the normalized sentiment only,
    and it is the grey "#888888" exactly when that sentiment is not,
    letter for letter, "Positive", "Neutral" or "Negative". *)
Theorem card_color_grey_iff (fb : record) (idx : nat) (c : card) :
  render_feedback_item fb idx = Ok c →
  ∃ s, normalize_sentiment fb = Ok s ∧
       card_color c = sentiment_color s ∧
       (card_color c = "#888888" ↔
        s ≠ "Positive" ∧ s ≠ "Neutral" ∧ s ≠ "Negative").
Proof.
  intros H. unfold render_feedback_item, subscript in H.
  destruct (normalize_sentiment fb) as [s|e]; simpl in H; [|discriminate].
  destruct (fb !! "rating") as [r|]; simpl in H; [|discriminate].
  destruct (fb !! "created_at") as [ca|]; simpl in H; [|discriminate].
  destruct (slice10 ca) as [d|e]; simpl in H; [|discriminate].
  destruct (fb !! "review") as [rv|]; simpl in H; [|discriminate].
  destruct (star_bar r) as [st|e]; simpl in H; [|discriminate].
  injection H as <-. cbn [card_color].
  exists s. repeat split; unfold sentiment_color in *.
  - intros ->. discriminate.
  - intros ->. discriminate.
  - intros ->. discriminate.
  - intros (H1 & H2 & H3).
    destruct (String.eqb_spec s "Positive"); [contradiction|].
    destruct (String.eqb_spec s "Neutral"); [contradiction|].
    destruct (String.eqb_spec s "Negative"); [contradiction|].
    now destruct (String.eqb s "Unknown").
Qed.

Lemma card_color_grey_iff_witness :
  ∃ c, render_feedback_item bad_bug_dated 7 = Ok c ∧
       ∃ s, normalize_sentiment bad_bug_dated = Ok s ∧
            card_color c = sentiment_color s ∧
            (card_color c = "#888888" ↔
             s ≠ "Positive" ∧ s ≠ "Neutral" ∧ s ≠ "Negative").
Proof.
  eexists. split; [reflexivity|].
  exact (card_color_grey_iff bad_bug_dated 7 _ eq_refl).
Defined.

(** The card of a complete record. *)
Example render_feedback_item_card :
  render_feedback_item bad_bug_dated 7 =
  Ok {| title_rating := VInt 1; title_sentiment := "Negative";
        title_date := VStr "2024-03-09"; card_review := VStr "bad bug";
        card_summary := VStr "Reports a BUG";
        card_stars := [Filled; Hollow; Hollow; Hollow; Hollow];
        card_color := "#ff0000"; card_actions := VStr "PROCESSING...";
        card_response := VStr "" |}.
Proof. reflexivity. Qed.

(** ** Properties of main *)

(** X14: while the session is not authenticated, a run of main shows the
    auth screen and nothing else: it ends without an exception, its page is
    empty or the refusal banner, and the run is the same whatever the
    network answers and whatever the rendering functions do, none of which
    is called. *)
Theorem main_requires_authentication
    (py_lt py_lt' : value → value → result bool) (net net' : network) (cfg : config)
    (hdr hdr' : io unit) (met met' cha cha' : value → io unit)
    (ss0 : option session_state) (w : widgets) :
  authenticated (default {| authenticated := false |} ss0) = false →
  main py_lt net cfg hdr met cha ss0 w = main py_lt' net' cfg hdr' met' cha' ss0 w ∧
  (main py_lt net cfg hdr met cha ss0 w).1.1 = Ok tt ∧
  auth_page (main py_lt net cfg hdr met cha ss0 w).1.2.
Proof.
  intros H. unfold main. rewrite H. repeat split.
  simpl. unfold render_auth_screen, auth_page.
  destruct (w_authenticate w); [|now left].
  destruct (key_matches _ _); [now left | now right].
Qed.

Lemma main_requires_authentication_witness :
  main py_lt_str net_down sample_cfg quiet quiet_on quiet_on None (login_widgets "guess")
  = main py_lt_str (net_status 200 (Ok (VList (VDict <$> stream 3)))) sample_cfg
      quiet quiet_on quiet_on None (login_widgets "guess") ∧
  (main py_lt_str net_down sample_cfg quiet quiet_on quiet_on None
     (login_widgets "guess")).1.1 = Ok tt ∧
  auth_page (main py_lt_str net_down sample_cfg quiet quiet_on quiet_on None
               (login_widgets "guess")).1.2.
Proof.
  exact (main_requires_authentication py_lt_str py_lt_str net_down
           (net_status 200 (Ok (VList (VDict <$> stream 3)))) sample_cfg
           quiet quiet quiet_on quiet_on quiet_on quiet_on None
           (login_widgets "guess") eq_refl).
Defined.

(** X15: how a run of main changes the session.  The session is
    authenticated after the run exactly when either it was not and the
    operator pressed AUTHENTICATE with the configured key, or it was and
    LOGOUT was not pressed or the dashboard raised before the sidebar, and
    with it the LOGOUT button, was rendered. *)
Theorem main_session_transitions
    (py_lt : value → value → result bool) (net : network) (cfg : config)
    (hdr : io unit) (met cha : value → io unit)
    (ss0 : option session_state) (w : widgets) :
  authenticated (main py_lt net cfg hdr met cha ss0 w).2 = true ↔
  (authenticated (default {| authenticated := false |} ss0) = false ∧
   w_authenticate w = true ∧ API_KEY cfg = Some (w_api_key_input w)) ∨
  (authenticated (default {| authenticated := false |} ss0) = true ∧
   (w_logout w = false ∨
    ∃ e, (run (dashboard py_lt net cfg hdr met cha w)).1 = Raise e)).
Proof.
  unfold main.
  destruct (authenticated (default {| authenticated := false |} ss0)) eqn:Ha.
  - destruct (run (dashboard py_lt net cfg hdr met cha w)) as [[u|e] page]; simpl.
    + unfold render_sidebar. destruct (w_logout w); simpl.
      * split; [discriminate|].
        intros [(H & _) | (_ & [H | [e H]])]; discriminate.
      * rewrite Ha. split; [|reflexivity]. intros _. right. auto.
    + rewrite Ha. split; [|reflexivity]. intros _. right. split; [reflexivity|].
      right. now exists e.
  - simpl. unfold render_auth_screen.
    pose proof (key_matches_true (w_api_key_input w) (API_KEY cfg)) as Hk.
    destruct (w_authenticate w).
    + destruct (key_matches _ _); simpl.
      * split; [|reflexivity]. intros _. left. repeat split. now apply Hk.
      * rewrite Ha. split; [discriminate|].
        intros [(_ & _ & H) | (H & _)]; [|discriminate].
        apply Hk in H. discriminate.
    + simpl. rewrite Ha. split; [discriminate|].
      intros [(_ & H & _) | (H & _)]; discriminate.
Qed.

(** X16: with API_KEY unset nobody gets in: from a session that is not
    authenticated, whatever the operator types and presses over any number
    of runs, every run ends without an exception on the auth screen and
    the session stays unauthenticated. *)
Theorem no_login_without_api_key
    (py_lt : value → value → result bool) (net : network) (cfg : config)
    (hdr : io unit) (met cha : value → io unit)
    (ss0 : option session_state) (ws : list widgets) :
  API_KEY cfg = None →
  authenticated (default {| authenticated := false |} ss0) = false →
  Forall (λ p : result unit * list ui_event, p.1 = Ok tt ∧ auth_page p.2)
    (script_runs py_lt net cfg hdr met cha ss0 ws).1 ∧
  authenticated (default {| authenticated := false |}
                   (script_runs py_lt net cfg hdr met cha ss0 ws).2) = false.
Proof.
  intros Hkey. revert ss0.
  induction ws as [|w ws IH]; intros ss0 Ha; cbn [script_runs].
  - split; [constructor | assumption].
  - assert (Hrun : ∃ page,
              main py_lt net cfg hdr met cha ss0 w
              = (Ok tt, page, default {| authenticated := false |} ss0) ∧
              auth_page page).
    { unfold main. rewrite Ha. unfold render_auth_screen. rewrite Hkey. simpl.
      destruct (w_authenticate w); eexists; (split; [reflexivity|]);
        [now right | now left]. }
    destruct Hrun as (page & Em & Hpage). rewrite Em. cbn [fst snd].
    destruct (IH (Some (default {| authenticated := false |} ss0)) Ha) as [Hall Hlast].
    split; [|exact Hlast].
    constructor; [now split | exact Hall].
Qed.

Lemma no_login_without_api_key_witness :
  Forall (λ p : result unit * list ui_event, p.1 = Ok tt ∧ auth_page p.2)
    (script_runs py_lt_str (net_status 200 (Ok (VList (VDict <$> stream 3))))
       {| API_URL := "http://localhost:8000"; API_KEY := None |}
       quiet quiet_on quiet_on None
       [login_widgets ""; login_widgets "None"; idle_widgets]).1 ∧
  authenticated (default {| authenticated := false |}
    (script_runs py_lt_str (net_status 200 (Ok (VList (VDict <$> stream 3))))
       {| API_URL := "http://localhost:8000"; API_KEY := None |}
       quiet quiet_on quiet_on None
       [login_widgets ""; login_widgets "None"; idle_widgets]).2) = false.
Proof.
  exact (no_login_without_api_key py_lt_str
           (net_status 200 (Ok (VList (VDict <$> stream 3))))
           {| API_URL := "http://localhost:8000"; API_KEY := None |}
           quiet quiet_on quiet_on None
           [login_widgets ""; login_widgets "None"; idle_widgets] eq_refl eq_refl).
Defined.

(** X17: an answer that is not a 200, and a 200 whose body is an empty or
    otherwise falsy JSON value (an empty object or array, null, 0, false,
    an empty string), are shown alike: the analytics section shows
    "ERROR: FAILED TO CONNECT TO DATA SOURCE" and calls neither
    render_metrics nor render_charts, and the feedback section shows
    "NO FEEDBACK STREAM DETECTED"; neither shows an st.error banner. *)
Theorem empty_body_shown_as_failure
    (py_lt : value → value → result bool) (net : network) (cfg : config)
    (met cha : value → io unit) (rf : list Z) (sf : list string) (q : string)
    (r r' : response) :
  net (analytics_request cfg) = Ok r →
  net (feedbacks_request cfg 100) = Ok r' →
  status_code r ≠ 200 ∨ (∃ v, json r = Ok v ∧ truthy v = false) →
  status_code r' ≠ 200 ∨ (∃ v, json r' = Ok v ∧ truthy v = false) →
  run (analytics_section net cfg met cha)
    = (Ok tt, [TerminalBox "ERROR: FAILED TO CONNECT TO DATA SOURCE"]) ∧
  run (feedback_section py_lt net cfg rf sf q)
    = (Ok tt, [TerminalBox "NO FEEDBACK STREAM DETECTED"]).
Proof.
  intros Hr Hr' H H'. split.
  - unfold run, analytics_section. unfold mbind at 1. unfold io_bind.
    change (fetch_analytics net cfg []) with (run (fetch_analytics net cfg)).
    rewrite fetch_analytics_run, Hr.
    destruct (Z.eqb_spec (status_code r) 200) as [E|E].
    + destruct H as [H | (v & Hj & Hv)]; [contradiction|].
      rewrite Hj, Hv. reflexivity.
    + reflexivity.
  - unfold run, feedback_section. unfold mbind at 1. unfold io_bind.
    change (fetch_feedbacks net cfg 100 []) with (run (fetch_feedbacks net cfg 100)).
    rewrite fetch_feedbacks_run, Hr'.
    destruct (Z.eqb_spec (status_code r') 200) as [E|E].
    + destruct H' as [H' | (v & Hj & Hv)]; [contradiction|].
      rewrite Hj, Hv. reflexivity.
    + reflexivity.
Qed.

Lemma empty_body_shown_as_failure_witness :
  run (analytics_section (net_status 200 (Ok (VDict ∅))) sample_cfg quiet_on quiet_on)
    = (Ok tt, [TerminalBox "ERROR: FAILED TO CONNECT TO DATA SOURCE"]) ∧
  run (feedback_section py_lt_str (net_status 200 (Ok (VDict ∅))) sample_cfg
         all_ratings all_sentiments "")
    = (Ok tt, [TerminalBox "NO FEEDBACK STREAM DETECTED"]).
Proof.
  apply (empty_body_shown_as_failure py_lt_str (net_status 200 (Ok (VDict ∅)))
           sample_cfg quiet_on quiet_on all_ratings all_sentiments ""
           {| status_code := 200; json := Ok (VDict ∅) |}
           {| status_code := 200; json := Ok (VDict ∅) |}).
  - reflexivity.
  - reflexivity.
  - right. exists (VDict ∅). split; reflexivity.
  - right. exists (VDict ∅). split; reflexivity.
Defined.

(** X18: the DATE RANGE input, the AUTO-REFRESH toggle and the REFRESH
    RATE and MAX RECORDS sliders have no effect: two runs of main whose
    widgets agree on the key input, the two buttons, the two multiselects
    and the search box are the same run, page and session included. *)
Theorem unused_controls_have_no_effect
    (py_lt : value → value → result bool) (net : network) (cfg : config)
    (hdr : io unit) (met cha : value → io unit)
    (ss0 : option session_state) (w w' : widgets) :
  same_inputs w w' →
  main py_lt net cfg hdr met cha ss0 w = main py_lt net cfg hdr met cha ss0 w'.
Proof.
  intros (Hk & Ha & Hr & Hs & Hq & Hl).
  unfold main, dashboard, render_filters, render_sidebar. simpl.
  now rewrite Hk, Ha, Hr, Hs, Hq, Hl.
Qed.

Lemma unused_controls_have_no_effect_witness :
  main py_lt_str (net_status 200 (Ok (VList (VDict <$> stream 3)))) sample_cfg
    quiet quiet_on quiet_on (Some {| authenticated := true |}) idle_widgets
  = main py_lt_str (net_status 200 (Ok (VList (VDict <$> stream 3)))) sample_cfg
      quiet quiet_on quiet_on (Some {| authenticated := true |})
      {| w_api_key_input := ""; w_authenticate := false;
         w_rating_filter := rating_options; w_sentiment_filter := sentiment_options;
         w_date_range := [1; 2]; w_search := "";
         w_auto_refresh := true; w_refresh_rate := 10; w_max_records := 1000;
         w_logout := false |}.
Proof.
  apply (unused_controls_have_no_effect py_lt_str
           (net_status 200 (Ok (VList (VDict <$> stream 3)))) sample_cfg
           quiet quiet_on quiet_on (Some {| authenticated := true |}) idle_widgets).
  repeat split.
Defined.

Lemma all_records_Ok l : ∀ ds, all_records l = Ok ds → l = VDict <$> ds.
Proof.
  induction l as [|v l IH]; intros ds H; simpl in H.
  - now injection H as <-.
  - destruct v; simpl in H; try discriminate.
    destruct (all_records l) as [ds'|e]; simpl in H; [|discriminate].
    injection H as <-. now rewrite (IH ds' eq_refl).
Qed.

Lemma records_of_Ok v ds :
  truthy v = true → records_of v = Ok ds → v = VList (VDict <$> ds).
Proof.
  destruct v; simpl; intros Ht H; try discriminate.
  - destruct (PyStr.is_empty s); discriminate.
  - now rewrite (all_records_Ok l ds H).
  - destruct (bool_decide (d = ∅)); discriminate.
Qed.

(** X19: a 200 answer whose body is truthy but is not an array of objects
    (an error object, a string, a number, an array holding anything but
    objects) makes the feedback section raise before anything is shown:
    no error box, no stats bar. *)
Theorem feedback_section_rejects_other_bodies
    (py_lt : value → value → result bool) (net : network) (cfg : config)
    (rf : list Z) (sf : list string) (q : string) (r : response) (v : value) :
  net (feedbacks_request cfg 100) = Ok r →
  status_code r = 200 →
  json r = Ok v →
  truthy v = true →
  (∀ records, v ≠ VList (VDict <$> records)) →
  ∃ e, run (feedback_section py_lt net cfg rf sf q) = (Raise e, []).
Proof.
  intros Hr Hs Hj Ht Hv.
  unfold run, feedback_section. unfold mbind at 1. unfold io_bind.
  change (fetch_feedbacks net cfg 100 []) with (run (fetch_feedbacks net cfg 100)).
  rewrite fetch_feedbacks_run, Hr, Hs, Hj. simpl. rewrite Ht.
  unfold mbind, io_bind, lift.
  destruct (records_of v) as [ds|e] eqn:E.
  - apply (records_of_Ok v ds Ht) in E. now destruct (Hv ds).
  - now exists e.
Qed.

Lemma feedback_section_rejects_other_bodies_witness :
  ∃ e, run (feedback_section py_lt_str
              (net_status 200 (Ok (VDict {[ "detail" := VStr "Invalid API key" ]})))
              sample_cfg all_ratings all_sentiments "") = (Raise e, []).
Proof.
  apply (feedback_section_rejects_other_bodies py_lt_str
           (net_status 200 (Ok (VDict {[ "detail" := VStr "Invalid API key" ]})))
           sample_cfg all_ratings all_sentiments ""
           {| status_code := 200;
              json := Ok (VDict {[ "detail" := VStr "Invalid API key" ]}) |}
           (VDict {[ "detail" := VStr "Invalid API key" ]})).
  - reflexivity.
  - reflexivity.
  - reflexivity.
  - reflexivity.
  - discriminate.
Defined.

(** The two fetches and the feedback section only add to the page they
    are given. *)
Lemma fetch_analytics_frame net cfg out :
  fetch_analytics net cfg out =
  ((run (fetch_analytics net cfg)).1, out ++ (run (fetch_analytics net cfg)).2).
Proof.
  unfold run, fetch_analytics, try_except, lift, emit, mbind, io_bind, mret, io_ret.
  destruct (net (analytics_request cfg)) as [r|e]; simpl; [|reflexivity].
  destruct (status_code r =? 200); simpl; [|now rewrite app_nil_r].
  destruct (json r); simpl; [now rewrite app_nil_r | reflexivity].
Qed.

Lemma fetch_feedbacks_frame net cfg limit out :
  fetch_feedbacks net cfg limit out =
  ((run (fetch_feedbacks net cfg limit)).1,
   out ++ (run (fetch_feedbacks net cfg limit)).2).
Proof.
  unfold run, fetch_feedbacks, try_except, lift, emit, mbind, io_bind, mret, io_ret.
  destruct (net (feedbacks_request cfg limit)) as [r|e]; simpl; [|reflexivity].
  destruct (status_code r =? 200); simpl; [|now rewrite app_nil_r].
  destruct (json r); simpl; [now rewrite app_nil_r | reflexivity].
Qed.

Lemma feedback_section_frame py_lt net cfg rf sf q out :
  feedback_section py_lt net cfg rf sf q out =
  ((run (feedback_section py_lt net cfg rf sf q)).1,
   out ++ (run (feedback_section py_lt net cfg rf sf q)).2).
Proof.
  unfold feedback_section, run.
  unfold mbind at 1 6 11. unfold io_bind at 1 6 11.
  rewrite (fetch_feedbacks_frame net cfg 100 out).
  rewrite (fetch_feedbacks_frame net cfg 100 []).
  destruct (run (fetch_feedbacks net cfg 100)) as [[v|e] banners]; simpl;
    [|reflexivity].
  destruct (truthy v); [|unfold emit; simpl; now rewrite app_assoc].
  unfold mbind, io_bind, lift.
  destruct (records_of v) as [records|e]; [|reflexivity].
  destruct (sorted_reverse py_lt created_at_key records) as [feedbacks|e];
    [|reflexivity].
  destruct (filter_feedbacks feedbacks rf sf q) as [filtered|e]; [|reflexivity].
  unfold emit. rewrite !render_items_run. simpl. now rewrite !app_assoc.
Qed.

(** X20: a failed analytics fetch does not hide the feed: when the header
    is drawn and the analytics request fails in any way, the dashboard
    shows the fetch banner if there is one, then
    "ERROR: FAILED TO CONNECT TO DATA SOURCE", and then exactly what the
    feedback section shows on its own, with the feedback section's
    outcome. *)
Theorem analytics_failure_keeps_feed
    (py_lt : value → value → result bool) (net : network) (cfg : config)
    (hdr : io unit) (met cha : value → io unit) (w : widgets)
    (p0 : list ui_event) (k : failure_kind) :
  hdr [] = (Ok tt, p0) →
  classify (net (analytics_request cfg)) = Some k →
  run (dashboard py_lt net cfg hdr met cha w) =
  ((run (feedback_section py_lt net cfg (w_rating_filter w) (w_sentiment_filter w)
           (w_search w))).1,
   p0 ++ (run (fetch_analytics net cfg)).2
      ++ [TerminalBox "ERROR: FAILED TO CONNECT TO DATA SOURCE"]
      ++ (run (feedback_section py_lt net cfg (w_rating_filter w)
                 (w_sentiment_filter w) (w_search w))).2).
Proof.
  intros Hh Hk.
  unfold run at 1. unfold dashboard, render_filters. simpl.
  unfold mbind at 1. unfold io_bind at 1. rewrite Hh.
  unfold mbind at 1. unfold io_bind at 1.
  assert (Ha : analytics_section net cfg met cha p0 =
               (Ok tt, p0 ++ (run (fetch_analytics net cfg)).2
                          ++ [TerminalBox "ERROR: FAILED TO CONNECT TO DATA SOURCE"])).
  { unfold analytics_section. unfold mbind at 1. unfold io_bind.
    rewrite fetch_analytics_frame, fetch_analytics_run.
    unfold classify in Hk.
    destruct (net (analytics_request cfg)) as [r|e]; simpl.
    - destruct (status_code r =? 200); simpl.
      + destruct (json r); [discriminate|]. simpl. unfold emit.
        now rewrite <- app_assoc.
      + unfold emit. now rewrite <- app_assoc.
    - unfold emit. now rewrite <- app_assoc. }
  rewrite Ha, feedback_section_frame. now rewrite <- !app_assoc.
Qed.

Lemma analytics_failure_keeps_feed_witness :
  run (dashboard py_lt_str net_down sample_cfg quiet quiet_on quiet_on idle_widgets) =
  ((run (feedback_section py_lt_str net_down sample_cfg (w_rating_filter idle_widgets)
           (w_sentiment_filter idle_widgets) (w_search idle_widgets))).1,
   [] ++ (run (fetch_analytics net_down sample_cfg)).2
      ++ [TerminalBox "ERROR: FAILED TO CONNECT TO DATA SOURCE"]
      ++ (run (feedback_section py_lt_str net_down sample_cfg
                 (w_rating_filter idle_widgets) (w_sentiment_filter idle_widgets)
                 (w_search idle_widgets))).2).
Proof.
  exact (analytics_failure_keeps_feed py_lt_str net_down sample_cfg quiet quiet_on
           quiet_on idle_widgets [] Unreachable eq_refl eq_refl).
Defined.

(** The page when no server can be reached: two banners, two boxes. *)
Example dashboard_offline :
  run (dashboard py_lt_str net_down sample_cfg quiet quiet_on quiet_on idle_widgets) =
  (Ok tt,
   [StError "Analytics fetch error: Connection refused";
    TerminalBox "ERROR: FAILED TO CONNECT TO DATA SOURCE";
    StError "Feedback fetch error: Connection refused";
    TerminalBox "NO FEEDBACK STREAM DETECTED"]).
Proof. reflexivity. Qed.

(** X21: filter_feedbacks works record by record: when it returns on two
    lists, it returns on the two in a row, and the result is the two
    results in a row. *)
Theorem filter_feedbacks_app (fbs1 fbs2 out1 out2 : list record) (rf : list Z)
    (sf : list string) (q : string) :
  filter_feedbacks fbs1 rf sf q = Ok out1 →
  filter_feedbacks fbs2 rf sf q = Ok out2 →
  filter_feedbacks (fbs1 ++ fbs2) rf sf q = Ok (out1 ++ out2).
Proof.
  intros H1 H2. revert out1 H1.
  induction fbs1 as [|fb fbs1 IH]; intros out1 H1; simpl in H1.
  - injection H1 as <-. exact H2.
  - rewrite <- app_comm_cons. cbn [filter_feedbacks].
    destruct (keeps rf sf q fb) as [b|e]; simpl in H1 |- *; [|discriminate].
    destruct (filter_feedbacks fbs1 rf sf q) as [o|e]; simpl in H1; [|discriminate].
    injection H1 as <-. rewrite (IH o eq_refl). simpl. now destruct b.
Qed.

Lemma filter_feedbacks_app_witness :
  filter_feedbacks ([great_app; bad_bug] ++ stream 2) all_ratings all_sentiments "app"
  = Ok ([great_app] ++ stream 2).
Proof.
  exact (filter_feedbacks_app [great_app; bad_bug] (stream 2) [great_app] (stream 2)
           all_ratings all_sentiments "app" eq_refl eq_refl).
Defined.

(** [s[:m]] is a prefix of [s]: of length [m], or all of [s] when [s] is
    shorter. *)
Lemma substring_prefix m : ∀ s,
  ∃ rest, s = String.substring 0 m s +:+ rest ∧
          (String.length (String.substring 0 m s) = m ∨
           (rest = "" ∧ (String.length s < m)%nat)).
Proof.
  induction m as [|m IH]; intros s.
  - exists s. destruct s; simpl; auto.
  - destruct s as [|c s]; simpl.
    + exists "". split; [reflexivity|]. right. split; [reflexivity | lia].
    + destruct (IH s) as (rest & E & H). exists rest. split.
      * push_append. now rewrite <- E.
      * destruct H as [H | [-> H]]; [left; now rewrite H | right; split; [reflexivity | lia]].
Qed.

(** X22: the date in the title of a card is the first ten characters of
    an ASCII text created_at; a created_at shorter than ten characters is
    shown whole, and no bounds error is raised. *)
Theorem card_date_is_first_ten (fb : record) (idx : nat) (c : card) (s : string) :
  render_feedback_item fb idx = Ok c →
  fb !! "created_at" = Some (VStr s) →
  is_ascii s →
  ∃ d rest, title_date c = VStr d ∧ s = d +:+ rest ∧
            (String.length d = 10%nat ∨ (rest = "" ∧ (String.length s < 10)%nat)).
Proof.
  intros H Hc _. unfold render_feedback_item, subscript in H. rewrite Hc in H.
  destruct (normalize_sentiment fb) as [t|e]; simpl in H; [|discriminate].
  destruct (fb !! "rating") as [r|]; simpl in H; [|discriminate].
  destruct (fb !! "review") as [rv|]; simpl in H; [|discriminate].
  destruct (star_bar r) as [st|e]; simpl in H; [|discriminate].
  injection H as <-. cbn [title_date].
  destruct (substring_prefix 10 s) as (rest & E & Hl).
  now exists (String.substring 0 10 s), rest.
Qed.

Lemma card_date_is_first_ten_witness :
  ∃ c, render_feedback_item bad_bug_dated 0 = Ok c ∧
       ∃ d rest, title_date c = VStr d ∧ "2024-03-09T18:02:11Z" = d +:+ rest ∧
                 (String.length d = 10%nat ∨
                  (rest = "" ∧ (String.length "2024-03-09T18:02:11Z" < 10)%nat)).
Proof.
  eexists. split; [reflexivity|].
  exact (card_date_is_first_ten bad_bug_dated 0 _ "2024-03-09T18:02:11Z"
           eq_refl eq_refl eq_refl).
Defined.
